(** * EchoTorch: the stacked echo state network (echotorch/nn/StackedESN.py)

    A shallow embedding of the [StackedESN] class.  A Python object is a
    finite map from attribute names to values, a method is a computation
    in a state-and-exception monad over that map, and the two collaborator
    classes ([ESNCell], [RRCell]), whose files are not part of the sources,
    are records of what the stack passes to their constructors. *)

From Stdlib Require Import ZArith QArith.QArith_base Lia.
From stdpp Require Import gmap strings list fin_maps.

Open Scope Z_scope.

(** ** Python values and exceptions *)

Module Py.

(** The exceptions the embedded code can raise.  [ConfigurationError] is
    the exception the specification names for invalid configurations; it
    is declared so that statements about it can be written. *)
Inductive exn :=
  | AttributeError
  | IndexError
  | TypeError
  | RuntimeError
  | NumericalError
  | ConfigurationError.

Inductive res (A : Type) :=
  | Ok (a : A)
  | Raise (e : exn).
Arguments Ok {A} a.
Arguments Raise {A} e.

Definition res_map {A B} (f : A → B) (r : res A) : res B :=
  match r with Ok a => Ok (f a) | Raise e => Raise e end.

(** A [torch.Tensor]: its shape and its elements in row-major order.  The
    stack never computes with the elements, it only moves them, so a
    float is carried as the rational it denotes. *)
Record Tensor := mkTensor { shape : list nat; data : list Q }.

Definition ndim (t : Tensor) : nat := length (shape t).

Definition numel (sh : list nat) : nat := foldr Nat.mul 1%nat sh.

(** [t[n]] for [0 <= n]: the [n]-th slice along the leading axis. *)
Definition tensor_index (t : Tensor) (n : nat) : res Tensor :=
  match shape t with
  | [] => Raise IndexError
  | d :: rest =>
      if decide (n < d)%nat
      then Ok (mkTensor rest (take (numel rest) (drop (n * numel rest) (data t))))
      else Raise IndexError
  end.

(** The positional arguments of the call [ESNCell(...)] at
    StackedESN.py:114-117, in call order. *)
Record ESNCell_ (V : Type) := mkESNCell {
  c_input_dim : Z;
  c_output_dim : Z;
  c_spectral_radius : V;
  c_bias_scaling : V;
  c_input_scaling : V;
  c_w : V;
  c_w_in : V;
  c_w_bias : V;
  c_w_fdb : V;
  c_sparsity : V;
  c_input_set : V;
  c_w_sparsity : V;
  c_nonlin_func : V;
  c_feedbacks : V;
  c_feedbacks_dim : Z;
  c_wfdb_sparsity : V;
  c_normalize_feedbacks : V
}.
Arguments mkESNCell {V}.
Arguments c_input_dim {V}.
Arguments c_output_dim {V}.
Arguments c_spectral_radius {V}.
Arguments c_bias_scaling {V}.
Arguments c_input_scaling {V}.
Arguments c_w {V}.
Arguments c_w_in {V}.
Arguments c_w_bias {V}.
Arguments c_w_fdb {V}.
Arguments c_sparsity {V}.
Arguments c_input_set {V}.
Arguments c_w_sparsity {V}.
Arguments c_nonlin_func {V}.
Arguments c_feedbacks {V}.
Arguments c_feedbacks_dim {V}.
Arguments c_wfdb_sparsity {V}.
Arguments c_normalize_feedbacks {V}.

(** The positional arguments of the call [RRCell(...)] at
    StackedESN.py:121, followed by the readout's own state.

    Modelled from the spec: the state of RRCell (RRCell.py is not part of
    the sources).  Section 3 gives the readout "accumulated regression
    statistics (created empty at construction ...)" and "a weight matrix
    (None until finalize succeeds)"; [rr_stats] is the sequence of
    batches accumulated so far, [rr_w_out] the weight matrix and
    [rr_training] the module's training flag. *)
Record RRCell_ (V : Type) := mkRRCell {
  rr_input_dim : Z;
  rr_output_dim : Z;
  rr_ridge_param : V;
  rr_feedbacks : V;
  rr_with_bias : V;
  rr_learning_algo : V;
  rr_stats : list V;
  rr_w_out : V;
  rr_training : bool
}.
Arguments mkRRCell {V}.
Arguments rr_input_dim {V}.
Arguments rr_output_dim {V}.
Arguments rr_ridge_param {V}.
Arguments rr_feedbacks {V}.
Arguments rr_with_bias {V}.
Arguments rr_learning_algo {V}.
Arguments rr_stats {V}.
Arguments rr_w_out {V}.
Arguments rr_training {V}.

(** One universe of values, as Python has it. *)
#[warnings="-register-all"]
Inductive pyval :=
  | PyNone
  | PyBool (b : bool)
  | PyInt (z : Z)
  | PyFloat (q : Q)
  | PyStr (s : string)
  | PyList (l : list pyval)
  | PyTuple (l : list pyval)
  | PyTensor (t : Tensor)
  | PyFunc (name : string)
  | PyESNCell (c : ESNCell_ pyval)
  | PyRRCell (r : RRCell_ pyval).

Abbreviation ESNCell := (ESNCell_ pyval).
Abbreviation RRCell := (RRCell_ pyval).

(** [seq[n]] on a list, for [0 <= n]. *)
Definition py_index {A} (l : list A) (n : nat) : res A :=
  match l !! n with
  | Some x => Ok x
  | None => Raise IndexError
  end.

(** [bool(v)]. *)
Definition truthy (v : pyval) : res bool :=
  match v with
  | PyNone => Ok false
  | PyBool b => Ok b
  | PyInt z => Ok (negb (z =? 0))
  | PyFloat q => Ok (negb (Qnum q =? 0))
  | PyStr s => Ok (negb (String.eqb s ""))
  | PyList l | PyTuple l => Ok (negb (Nat.eqb (length l) 0))
  | PyTensor t =>
      match data t with
      | [q] => Ok (negb (Qnum q =? 0))
      | _ => Raise RuntimeError
      end
  | PyFunc _ | PyESNCell _ | PyRRCell _ => Ok true
  end.

(** *** Objects and methods

    An object is the map of its attributes; a method body is a state
    transformer that may raise.  A raised exception leaves the attribute
    writes made before it in place, as in Python. *)
Definition M (A : Type) : Type := gmap string pyval → res A * gmap string pyval.

#[global] Instance res_ret : MRet res := λ A a, Ok a.
#[global] Instance res_bind : MBind res := λ A B f r,
  match r with
  | Ok a => f a
  | Raise e => Raise e
  end.

#[global] Instance M_ret : MRet M := λ A a s, (Ok a, s).
#[global] Instance M_bind : MBind M := λ A B f m s,
  match m s with
  | (Ok a, s') => f a s'
  | (Raise e, s') => (Raise e, s')
  end.

Definition raise {A} (e : exn) : M A := λ s, (Raise e, s).

Definition lift {A} (r : res A) : M A := λ s, (r, s).

(** [self.name] as an expression: a missing attribute is an
    [AttributeError] (raised by [nn.Module.__getattr__]). *)
Definition getattr (name : string) : M pyval := λ s,
  match s !! name with
  | Some v => (Ok v, s)
  | None => (Raise AttributeError, s)
  end.

(** [self.name = v]. *)
Definition setattr (name : string) (v : pyval) : M unit := λ s,
  (Ok tt, <[name := v]> s).

(** [for x in xs: body]. *)
Fixpoint for_in {A} (xs : list A) (body : A → M unit) : M unit :=
  match xs with
  | [] => mret tt
  | x :: xs' => body x ≫= λ _, for_in xs' body
  end.

(** [range(n)]. *)
Definition range (n : Z) : list nat := seq 0 (Z.to_nat n).

End Py.

Import Py.

(** ** The part of [torch.nn.Module] the stack relies on *)

Module nn.

(** [nn.Module.__init__]: a fresh module is in training mode. *)
Definition Module_init : M unit := setattr "training" (PyBool true).

(** [module.train(mode)] on a child module. *)
Definition train_child (mode : bool) (v : pyval) : pyval :=
  match v with
  | PyRRCell r =>
      PyRRCell (mkRRCell (rr_input_dim r) (rr_output_dim r) (rr_ridge_param r)
                  (rr_feedbacks r) (rr_with_bias r) (rr_learning_algo r)
                  (rr_stats r) (rr_w_out r) mode)
  | _ => v
  end.

(** [self.train(mode)]: sets [self.training] and recurses into the
    registered children, that is the modules assigned directly to an
    attribute.  Modules held inside a plain Python list, as
    [esn_layers] is, are not children. *)
Definition train (mode : bool) : M unit := λ s,
  (Ok tt, train_child mode <$> <["training" := PyBool mode]> s).

End nn.

(** ** The class [StackedESN] *)

Module StackedESN.

(** *** Per-layer parameter resolution (StackedESN.py:80-110) *)

(** [p[n] if type(p) is list else p] (lines 81-83). *)
Definition layer_scalar (p : pyval) (n : nat) : res pyval :=
  match p with
  | PyList l => py_index l n
  | _ => Ok p
  end.

(** The three [if type(p) is torch.Tensor and p.ndim == k] blocks
    (lines 86-110); [k] is 3 for [w] and [w_in] and 2 for [w_bias]. *)
Definition layer_tensor (k : nat) (p : pyval) (n : nat) : res pyval :=
  match p with
  | PyTensor t =>
      if decide (ndim t = k) then res_map PyTensor (tensor_index t n) else Ok p
  | _ => Ok PyNone
  end.

Definition layer_w := layer_tensor 3.
Definition layer_w_in := layer_tensor 3.
Definition layer_w_bias := layer_tensor 2.

(** The arguments of the constructor, with the defaults of its
    signature (lines 43-46). *)
Record ctor_args := mkArgs {
  a_input_dim : Z;
  a_hidden_dim : list Z;
  a_output_dim : Z;
  a_spectral_radius : pyval;
  a_bias_scaling : pyval;
  a_input_scaling : pyval;
  a_w : pyval;
  a_w_in : pyval;
  a_w_bias : pyval;
  a_w_fdb : pyval;
  a_sparsity : pyval;
  a_input_set : pyval;
  a_w_sparsity : pyval;
  a_nonlin_func : pyval;
  a_learning_algo : pyval;
  a_ridge_param : pyval;
  a_create_cell : pyval;
  a_feedbacks : pyval;
  a_with_bias : pyval;
  a_wfdb_sparsity : pyval;
  a_normalize_feedbacks : pyval
}.

Definition default_args (input_dim : Z) (hidden_dim : list Z) (output_dim : Z)
  : ctor_args :=
  {| a_input_dim := input_dim;
     a_hidden_dim := hidden_dim;
     a_output_dim := output_dim;
     a_spectral_radius := PyFloat (9 # 10);
     a_bias_scaling := PyInt 0;
     a_input_scaling := PyFloat (1 # 1);
     a_w := PyNone;
     a_w_in := PyNone;
     a_w_bias := PyNone;
     a_w_fdb := PyNone;
     a_sparsity := PyNone;
     a_input_set := PyList [PyFloat (1 # 1); PyFloat (-1 # 1)];
     a_w_sparsity := PyNone;
     a_nonlin_func := PyFunc "torch.tanh";
     a_learning_algo := PyStr "inv";
     a_ridge_param := PyFloat (0 # 1);
     a_create_cell := PyBool true;
     a_feedbacks := PyBool false;
     a_with_bias := PyBool true;
     a_wfdb_sparsity := PyNone;
     a_normalize_feedbacks := PyBool false |}.

(** Reading an attribute that must hold an [int] or a [list]. *)
Definition getattr_int (name : string) : M Z :=
  getattr name ≫= λ v,
  match v with
  | PyInt z => mret z
  | PyBool b => mret (if b then 1 else 0)
  | _ => raise TypeError
  end.

Definition getattr_list (name : string) : M (list pyval) :=
  getattr name ≫= λ v,
  match v with
  | PyList l => mret l
  | _ => raise AttributeError
  end.

(** Modelled from the spec: the constructor of RRCell (RRCell.py is not
    part of the sources).  It records its arguments; by section 3 the
    statistics are "created empty at construction" and the weight matrix
    is "None until finalize succeeds"; a fresh module is in training
    mode. *)
Definition RRCell_new (input_dim output_dim : Z)
    (ridge_param feedbacks with_bias learning_algo : pyval) : pyval :=
  PyRRCell (mkRRCell input_dim output_dim ridge_param feedbacks with_bias
              learning_algo [] PyNone true).

(** The body of the constructor's loop (lines 76-117) at layer [n]. *)
Definition init_layer (a : ctor_args) (n : nat) : M unit :=
  layer_input_dim ←
    (if decide (n = 0%nat) then mret (a_input_dim a)
     else lift (py_index (a_hidden_dim a) (n - 1)));
  n_features ← getattr_int "n_features";
  setattr "n_features" (PyInt (n_features + layer_input_dim));;
  layer_spectral_radius ← lift (layer_scalar (a_spectral_radius a) n);
  layer_bias_scaling ← lift (layer_scalar (a_bias_scaling a) n);
  layer_input_scaling ← lift (layer_scalar (a_input_scaling a) n);
  lw ← lift (layer_w (a_w a) n);
  lw_in ← lift (layer_w_in (a_w_in a) n);
  lw_bias ← lift (layer_w_bias (a_w_bias a) n);
  esn_layers ← getattr_list "esn_layers";
  hidden_dim_n ← lift (py_index (a_hidden_dim a) n);
  setattr "esn_layers"
    (PyList (esn_layers ++ [PyESNCell (mkESNCell
       layer_input_dim hidden_dim_n layer_spectral_radius layer_bias_scaling
       layer_input_scaling lw lw_in lw_bias PyNone (a_sparsity a)
       (a_input_set a) (a_w_sparsity a) (a_nonlin_func a) (a_feedbacks a)
       (a_output_dim a) (a_wfdb_sparsity a) (a_normalize_feedbacks a))])).

(** [StackedESN.__init__] (lines 65-121). *)
Definition __init__ (a : ctor_args) : M unit :=
  nn.Module_init;;
  setattr "n_layers" (PyInt (Z.of_nat (length (a_hidden_dim a))));;
  setattr "esn_layers" (PyList []);;
  setattr "n_features" (PyInt 0);;
  n_layers ← getattr_int "n_layers";
  for_in (range n_layers) (init_layer a);;
  n_features ← getattr_int "n_features";
  setattr "output"
    (RRCell_new n_features (a_output_dim a) (a_ridge_param a) (a_feedbacks a)
       (a_with_bias a) (a_learning_algo a)).

(** [StackedESN(...)]: the constructed object, or the exception that
    escaped the constructor. *)
Definition construct (a : ctor_args) : res (gmap string pyval) :=
  match __init__ a ∅ with
  | (Ok _, s) => Ok s
  | (Raise e, _) => Raise e
  end.

(** The cell stored at index [i] of [self.esn_layers]. *)
Definition cell_at (s : gmap string pyval) (i : nat) : option ESNCell :=
  match s !! "esn_layers" with
  | Some (PyList l) =>
      match l !! i with
      | Some (PyESNCell c) => Some c
      | _ => None
      end
  | _ => None
  end.

(** The cell the loop body appends at layer [n], as a function of the
    constructor's arguments: the resolutions of [init_layer] in the same
    order, without the attribute traffic ([init_layer_run] relates the
    two). *)
Definition layer_cell (a : ctor_args) (n : nat) : res ESNCell :=
  layer_input_dim ←
    (if decide (n = 0%nat) then Ok (a_input_dim a)
     else py_index (a_hidden_dim a) (n - 1));
  layer_spectral_radius ← layer_scalar (a_spectral_radius a) n;
  layer_bias_scaling ← layer_scalar (a_bias_scaling a) n;
  layer_input_scaling ← layer_scalar (a_input_scaling a) n;
  lw ← layer_w (a_w a) n;
  lw_in ← layer_w_in (a_w_in a) n;
  lw_bias ← layer_w_bias (a_w_bias a) n;
  hidden_dim_n ← py_index (a_hidden_dim a) n;
  mret (mkESNCell
       layer_input_dim hidden_dim_n layer_spectral_radius layer_bias_scaling
       layer_input_scaling lw lw_in lw_bias PyNone (a_sparsity a)
       (a_input_set a) (a_w_sparsity a) (a_nonlin_func a) (a_feedbacks a)
       (a_output_dim a) (a_wfdb_sparsity a) (a_normalize_feedbacks a)).

(** Whether a parameter can be resolved at every layer index below
    [N]: a list needs at least [N] entries, a stacked tensor at least
    [N] slices. *)
Definition scalar_fits (p : pyval) (N : nat) : bool :=
  match p with
  | PyList l => (N <=? length l)%nat
  | _ => true
  end.

Definition tensor_fits (k : nat) (p : pyval) (N : nat) : bool :=
  match p with
  | PyTensor t =>
      if decide (ndim t = k) then (N <=? hd 0%nat (shape t))%nat else true
  | _ => true
  end.

Definition sized (a : ctor_args) : bool :=
  let N := length (a_hidden_dim a) in
  scalar_fits (a_spectral_radius a) N && scalar_fits (a_bias_scaling a) N
  && scalar_fits (a_input_scaling a) N && tensor_fits 3 (a_w a) N
  && tensor_fits 3 (a_w_in a) N && tensor_fits 2 (a_w_bias a) N.

(** [sum(xs)]. *)
Definition sum (xs : list Z) : Z := foldr Z.add 0 xs.

(** The same call with another [w_fdb]. *)
Definition with_w_fdb (v : pyval) (a : ctor_args) : ctor_args :=
  mkArgs (a_input_dim a) (a_hidden_dim a) (a_output_dim a)
    (a_spectral_radius a) (a_bias_scaling a) (a_input_scaling a) (a_w a)
    (a_w_in a) (a_w_bias a) v (a_sparsity a) (a_input_set a)
    (a_w_sparsity a) (a_nonlin_func a) (a_learning_algo a) (a_ridge_param a)
    (a_create_cell a) (a_feedbacks a) (a_with_bias a) (a_wfdb_sparsity a)
    (a_normalize_feedbacks a).

(** The three hyperparameters resolved by [layer_scalar], with the
    constructor argument and the cell field each one connects. *)
Inductive scalar_param := SpectralRadius | BiasScaling | InputScaling.

Definition scalar_arg (p : scalar_param) (a : ctor_args) : pyval :=
  match p with
  | SpectralRadius => a_spectral_radius a
  | BiasScaling => a_bias_scaling a
  | InputScaling => a_input_scaling a
  end.

Definition scalar_of (p : scalar_param) (c : ESNCell) : pyval :=
  match p with
  | SpectralRadius => c_spectral_radius c
  | BiasScaling => c_bias_scaling c
  | InputScaling => c_input_scaling c
  end.

(** The three hyperparameters resolved by [layer_tensor], with the
    number of dimensions at which the code takes each one as stacked. *)
Inductive tensor_param := W | WIn | WBias.

Definition tensor_arg (p : tensor_param) (a : ctor_args) : pyval :=
  match p with
  | W => a_w a
  | WIn => a_w_in a
  | WBias => a_w_bias a
  end.

Definition tensor_of (p : tensor_param) (c : ESNCell) : pyval :=
  match p with
  | W => c_w c
  | WIn => c_w_in c
  | WBias => c_w_bias c
  end.

Definition stacked_ndim (p : tensor_param) : nat :=
  match p with
  | W | WIn => 3%nat
  | WBias => 2%nat
  end.

(** [type(p) is list]. *)
Definition is_list (p : pyval) : bool :=
  match p with
  | PyList _ => true
  | _ => false
  end.

(** The attributes every state of a stack has, and those it lacks. *)
Definition well_formed (s : gmap string pyval) : Prop :=
  s !! "esn_cell" = None
  ∧ s !! "feedbacks" = None
  ∧ (∃ r, s !! "output" = Some (PyRRCell r))
  ∧ (∃ l, s !! "esn_layers" = Some (PyList l)).

(** *** Methods (StackedESN.py:128-243) *)

(** Modelled from the spec: RRCell.reset (RRCell.py is not part of the
    sources).  Section 4.4: "reset(): clears accumulated statistics,
    discards any previously finalized weights, returns to TRAIN phase." *)
Definition RRCell_reset (r : RRCell) : RRCell :=
  mkRRCell (rr_input_dim r) (rr_output_dim r) (rr_ridge_param r)
    (rr_feedbacks r) (rr_with_bias r) (rr_learning_algo r) [] PyNone true.

(** What the sources do not contain: the behaviour of the objects the
    stack delegates to.  Each operation that can change its object
    returns its result together with the object as it left it. *)
Class Collaborators := {
  (** [o.name], [o.name = v], [o.name()] and [o(args, kwargs)] on an
      object of a class that is not part of the sources. *)
  ext_getattr : pyval → string → res pyval;
  ext_setattr : pyval → string → pyval → res pyval;
  ext_method : pyval → string → res pyval * pyval;
  ext_call : pyval → list pyval → list (string * pyval) → res pyval * pyval;
  (** The readout's closed-form solve over its accumulated statistics;
      [None] when the system is singular. *)
  solve : RRCell → option pyval
}.

Section Methods.

Context {C : Collaborators}.

(** Modelled from the spec: RRCell.finalize (RRCell.py is not part of the
    sources).  Section 4.4: "finalize() -> weight_matrix: solves the
    closed-form regression ... from accumulated statistics; clears
    statistics; fails with a NumericalError if the system is singular". *)
Definition RRCell_finalize (r : RRCell) : res pyval * pyval :=
  match solve r with
  | Some wm =>
      (Ok wm,
       PyRRCell (mkRRCell (rr_input_dim r) (rr_output_dim r)
                   (rr_ridge_param r) (rr_feedbacks r) (rr_with_bias r)
                   (rr_learning_algo r) [] wm (rr_training r)))
  | None => (Raise NumericalError, PyRRCell r)
  end.

(** [o.name] on the value of an attribute. *)
Definition obj_getattr (o : pyval) (name : string) : res pyval :=
  match o with
  | PyRRCell r =>
      if String.eqb name "w_out" then Ok (rr_w_out r) else ext_getattr o name
  | _ => ext_getattr o name
  end.

(** [o.name()] on the value of an attribute. *)
Definition obj_method (o : pyval) (name : string) : res pyval * pyval :=
  match o with
  | PyRRCell r =>
      if String.eqb name "reset" then (Ok PyNone, PyRRCell (RRCell_reset r))
      else if String.eqb name "finalize" then RRCell_finalize r
      else ext_method o name
  | _ => ext_method o name
  end.

(** [self.attr.name()]: the object is mutated in place. *)
Definition invoke (attr name : string) : M pyval :=
  o ← getattr attr;
  setattr attr (obj_method o name).2;;
  lift (obj_method o name).1.

(** [self.attr(args, kwargs)]. *)
Definition call_attr (o : pyval) (attr : string) (args : list pyval)
    (kwargs : list (string * pyval)) : M pyval :=
  setattr attr (ext_call o args kwargs).2;;
  lift (ext_call o args kwargs).1.

(** Lines 129-136. *)
Definition hidden : M pyval :=
  esn_cell ← getattr "esn_cell";
  lift (obj_getattr esn_cell "hidden").

(** Lines 139-146. *)
Definition w : M pyval :=
  esn_cell ← getattr "esn_cell";
  lift (obj_getattr esn_cell "w").

(** Lines 149-156. *)
Definition w_in : M pyval :=
  esn_cell ← getattr "esn_cell";
  lift (obj_getattr esn_cell "w_in").

(** Lines 163-173. *)
Definition reset : M pyval :=
  invoke "output" "reset";;
  nn.train true;;
  mret PyNone.

(** Lines 176-182. *)
Definition get_w_out : M pyval :=
  output ← getattr "output";
  lift (obj_getattr output "w_out").

(** Lines 185-192. *)
Definition set_w (w : pyval) : M pyval :=
  esn_cell ← getattr "esn_cell";
  esn_cell' ← lift (ext_setattr esn_cell "w" w);
  setattr "esn_cell" esn_cell';;
  mret PyNone.

(** [a and b] in a condition, with [b] evaluated only when [a] holds. *)
Definition and_then (a : M bool) (b : M bool) : M bool :=
  a ≫= λ x : bool, if x then b else mret false.

(** [not a] in a condition. *)
Definition not_ (a : M bool) : M bool :=
  a ≫= λ x : bool, mret (negb x).

(** The truth value of [self.name]. *)
Definition test (name : string) : M bool :=
  v ← getattr name; lift (truthy v).

(** Lines 195-213. *)
Definition forward (u y : pyval) : M pyval :=
  c1 ← and_then (test "feedbacks") (test "training");
  hidden_states ←
    (if c1 : bool then
       esn_cell ← getattr "esn_cell";
       call_attr esn_cell "esn_cell" [u; y] []
     else
       c2 ← and_then (test "feedbacks") (not_ (test "training"));
       if c2 : bool then
         esn_cell ← getattr "esn_cell";
         w_out ← getattr "w_out";
         call_attr esn_cell "esn_cell" [u] [("w_out", w_out)]
       else
         esn_cell ← getattr "esn_cell";
         call_attr esn_cell "esn_cell" [u] []);
  output ← getattr "output";
  call_attr output "output" [hidden_states] [].

(** Lines 216-225. *)
Definition finalize : M pyval :=
  invoke "output" "finalize";;
  nn.train false;;
  mret PyNone.

(** Lines 228-234. *)
Definition reset_hidden : M pyval :=
  invoke "esn_cell" "reset_hidden";;
  mret PyNone.

(** Lines 237-243. *)
Definition get_spectral_radius : M pyval :=
  invoke "esn_cell" "get_spectral_raduis".

(** *** The states a client can bring a stack into *)

(** One use of the public interface. *)
Inductive call :=
  | CallHidden
  | CallW
  | CallWIn
  | CallReset
  | CallGetWOut
  | CallSetW (w : pyval)
  | CallForward (u y : pyval)
  | CallFinalize
  | CallResetHidden
  | CallGetSpectralRadius
  | CallTrain (mode : bool).

Definition run (c : call) : M pyval :=
  match c with
  | CallHidden => hidden
  | CallW => w
  | CallWIn => w_in
  | CallReset => reset
  | CallGetWOut => get_w_out
  | CallSetW v => set_w v
  | CallForward u y => forward u y
  | CallFinalize => finalize
  | CallResetHidden => reset_hidden
  | CallGetSpectralRadius => get_spectral_radius
  | CallTrain mode => nn.train mode;; mret PyNone
  end.

(** The states reached from a successful construction by any sequence of
    calls, whether a call returns or raises. *)
Inductive reachable : gmap string pyval → Prop :=
  | reach_construct a s : construct a = Ok s → reachable s
  | reach_call c s : reachable s → reachable (run c s).2.

(** A client's session: the calls made one after the other, each on
    the object as the previous one left it, whether it returned or
    raised. *)
Definition run_calls (cs : list call) (s : gmap string pyval)
  : gmap string pyval :=
  foldl (λ s' c, (run c s').2) s cs.

End Methods.

(** *** Concrete configurations *)

(** The same call with another value for one hyperparameter. *)
Definition set_scalar_arg (p : scalar_param) (v : pyval) (a : ctor_args)
  : ctor_args :=
  mkArgs (a_input_dim a) (a_hidden_dim a) (a_output_dim a)
    (match p with SpectralRadius => v | _ => a_spectral_radius a end)
    (match p with BiasScaling => v | _ => a_bias_scaling a end)
    (match p with InputScaling => v | _ => a_input_scaling a end)
    (a_w a) (a_w_in a) (a_w_bias a) (a_w_fdb a) (a_sparsity a) (a_input_set a)
    (a_w_sparsity a) (a_nonlin_func a) (a_learning_algo a) (a_ridge_param a)
    (a_create_cell a) (a_feedbacks a) (a_with_bias a) (a_wfdb_sparsity a)
    (a_normalize_feedbacks a).

Definition set_tensor_arg (p : tensor_param) (v : pyval) (a : ctor_args)
  : ctor_args :=
  mkArgs (a_input_dim a) (a_hidden_dim a) (a_output_dim a)
    (a_spectral_radius a) (a_bias_scaling a) (a_input_scaling a)
    (match p with W => v | _ => a_w a end)
    (match p with WIn => v | _ => a_w_in a end)
    (match p with WBias => v | _ => a_w_bias a end)
    (a_w_fdb a) (a_sparsity a) (a_input_set a)
    (a_w_sparsity a) (a_nonlin_func a) (a_learning_algo a) (a_ridge_param a)
    (a_create_cell a) (a_feedbacks a) (a_with_bias a) (a_wfdb_sparsity a)
    (a_normalize_feedbacks a).

(** The constructed object, or the empty object when construction
    raised. *)
Definition built (a : ctor_args) : gmap string pyval :=
  match construct a with
  | Ok s => s
  | Raise _ => ∅
  end.

(** The stack of the end-to-end scenario of section 8:
    [StackedESN(3, [5, 4], 2)]. *)
Definition ex_args : ctor_args := default_args 3 [5; 4] 2.

(** Three layers with one spectral radius per layer. *)
Definition ex_radii : pyval :=
  PyList [PyFloat (9 # 10); PyFloat (8 # 10); PyFloat (7 # 10)].

Definition ex_args3 : ctor_args :=
  set_scalar_arg SpectralRadius ex_radii (default_args 3 [5; 4; 6] 2).

(** The configuration section 8 gives as invalid:
    [hidden_dim=[10,20]], [spectral_radius=[0.9,0.8,0.7]]. *)
Definition ex_long : ctor_args :=
  set_scalar_arg SpectralRadius ex_radii (default_args 3 [10; 20] 2).

(** One spectral radius too few, and no layer at all. *)
Definition ex_short : ctor_args :=
  set_scalar_arg SpectralRadius (PyList [PyFloat (9 # 10)])
    (default_args 3 [10; 20] 2).

Definition ex_empty : ctor_args := default_args 3 [] 2.

(** A 3 x 2 bias matrix for a stack of two layers of width 2. *)
Definition ex_bias : Tensor :=
  mkTensor [3; 2]%nat
    [inject_Z 1; inject_Z 2; inject_Z 3; inject_Z 4; inject_Z 5; inject_Z 6].

Definition ex_bias_args : ctor_args :=
  set_tensor_arg WBias (PyTensor ex_bias) (default_args 3 [2; 2] 2).

(** Two stacked 2 x 2 recurrence matrices, and a stack with feedback
    requested. *)
Definition ex_w : Tensor :=
  mkTensor [2; 2; 2]%nat
    [inject_Z 1; inject_Z 2; inject_Z 3; inject_Z 4;
     inject_Z 5; inject_Z 6; inject_Z 7; inject_Z 8].

Definition ex_w_args : ctor_args :=
  set_tensor_arg W (PyTensor ex_w) (default_args 3 [2; 2] 2).

(** The scenario's stack built with [feedbacks=True]. *)
Definition ex_feedback_args : ctor_args :=
  mkArgs 3 [5; 4] 2 (PyFloat (9 # 10)) (PyInt 0) (PyFloat (1 # 1)) PyNone
    PyNone PyNone PyNone PyNone (PyList [PyFloat (1 # 1); PyFloat (-1 # 1)])
    PyNone (PyFunc "torch.tanh") (PyStr "inv") (PyFloat (0 # 1)) (PyBool true)
    (PyBool true) (PyBool true) PyNone (PyBool false).

(** An input sequence of three steps of width 3. *)
Definition ex_u : pyval :=
  PyTensor (mkTensor [3; 3]%nat
    [inject_Z 1; inject_Z 0; inject_Z 0; inject_Z 0; inject_Z 1; inject_Z 0;
     inject_Z 0; inject_Z 0; inject_Z 1]).

(** Collaborators that offer nothing beyond what is modelled here: no
    further attribute or method, and a solve that returns a fixed
    1 x 1 matrix. *)
Definition bare : Collaborators :=
  {| ext_getattr := λ _ _, Raise AttributeError;
     ext_setattr := λ _ _ _, Raise AttributeError;
     ext_method := λ o _, (Raise AttributeError, o);
     ext_call := λ o _ _, (Raise TypeError, o);
     solve := λ _, Some (PyTensor (mkTensor [1; 1]%nat [inject_Z 1])) |}.

(** The scenario's stack after [finalize()]. *)
Definition ex_trained : gmap string pyval :=
  (run (C := bare) CallFinalize (built ex_args)).2.

(** *** Further vocabulary for the constructor and the methods *)

(** The same call with another [create_cell]. *)
Definition with_create_cell (v : pyval) (a : ctor_args) : ctor_args :=
  mkArgs (a_input_dim a) (a_hidden_dim a) (a_output_dim a)
    (a_spectral_radius a) (a_bias_scaling a) (a_input_scaling a) (a_w a)
    (a_w_in a) (a_w_bias a) (a_w_fdb a) (a_sparsity a) (a_input_set a)
    (a_w_sparsity a) (a_nonlin_func a) (a_learning_algo a) (a_ridge_param a)
    v (a_feedbacks a) (a_with_bias a) (a_wfdb_sparsity a)
    (a_normalize_feedbacks a).






(** The shape of a value that is a tensor. *)
Definition shape_of (v : pyval) : option (list nat) :=
  match v with
  | PyTensor t => Some (shape t)
  | _ => None
  end.


(** Two stacked recurrence matrices for three layers. *)
Definition ex_short_w_args : ctor_args :=
  set_tensor_arg W (PyTensor ex_w) (default_args 3 [2; 2; 2] 2).

(** A session on the scenario's stack. *)
Definition ex_session : list call :=
  [CallFinalize; CallForward ex_u PyNone; CallTrain false; CallSetW ex_u;
   CallReset; CallGetWOut].

Section Properties.

Context {C : Collaborators}.

(** ** Properties *)

(** *** Running the monad *)

Lemma bind_run {A B} (m : M A) (f : A → M B) (s : gmap string pyval) :
  (m ≫= f) s =
  match m s with
  | (Ok x, s') => f x s'
  | (Raise e, s') => (Raise e, s')
  end.
Proof. reflexivity. Qed.

Lemma getattr_Some name v (s : gmap string pyval) :
  s !! name = Some v → getattr name s = (Ok v, s).
Proof. intros H. unfold getattr. by rewrite H. Qed.

Lemma getattr_None name (s : gmap string pyval) :
  s !! name = None → getattr name s = (Raise AttributeError, s).
Proof. intros H. unfold getattr. by rewrite H. Qed.

Lemma getattr_int_Some name z (s : gmap string pyval) :
  s !! name = Some (PyInt z) → getattr_int name s = (Ok z, s).
Proof. intros H. unfold getattr_int. rewrite bind_run, (getattr_Some _ _ _ H). done. Qed.

Lemma getattr_list_Some name l (s : gmap string pyval) :
  s !! name = Some (PyList l) → getattr_list name s = (Ok l, s).
Proof. intros H. unfold getattr_list. rewrite bind_run, (getattr_Some _ _ _ H). done. Qed.

Lemma res_bind_Ok {A B} (r : res A) (f : A → res B) b :
  r ≫= f = Ok b ↔ ∃ x, r = Ok x ∧ f x = Ok b.
Proof.
  unfold mbind, res_bind. destruct r; cbn; split.
  - eauto.
  - by intros (? & [= <-] & ?).
  - done.
  - by intros (? & ? & ?).
Qed.

Lemma res_bind_Raise {A B} (r : res A) (f : A → res B) e :
  r ≫= f = Raise e ↔ r = Raise e ∨ ∃ x, r = Ok x ∧ f x = Raise e.
Proof.
  unfold mbind, res_bind. destruct r; cbn; split.
  - intros H. right. eauto.
  - intros [H | (? & [= <-] & H)]; [discriminate H | done].
  - intros H. left. congruence.
  - intros [H | (? & H & _)].
    + congruence.
    + discriminate H.
Qed.

Lemma py_index_raise {A} (l : list A) n e : py_index l n = Raise e → e = IndexError.
Proof. unfold py_index. destruct (l !! n); congruence. Qed.

Lemma layer_scalar_raise p n e : layer_scalar p n = Raise e → e = IndexError.
Proof. destruct p; simpl; try congruence. apply py_index_raise. Qed.

Lemma tensor_index_raise t n e : tensor_index t n = Raise e → e = IndexError.
Proof. unfold tensor_index. destruct (shape t); [congruence|]. case_decide; congruence. Qed.

Lemma layer_tensor_raise k p n e : layer_tensor k p n = Raise e → e = IndexError.
Proof.
  destruct p; simpl; try congruence. case_decide; [|congruence].
  destruct (tensor_index t n) eqn:E; simpl; [congruence|].
  intros [= <-]. by apply tensor_index_raise in E.
Qed.

Lemma layer_cell_raise a n e : layer_cell a n = Raise e → e = IndexError.
Proof.
  unfold layer_cell. intros H.
  repeat (apply res_bind_Raise in H as [H | (? & _ & H)];
    [ first [ by eapply layer_scalar_raise | by eapply layer_tensor_raise
            | by eapply py_index_raise
            | case_decide; [congruence | by eapply py_index_raise] ] | ]).
  simpl in H. discriminate H.
Qed.

Lemma lift_bind_run {A B} (r : res A) (f : A → M B) (s : gmap string pyval) :
  (lift r ≫= f) s =
  match r with
  | Ok x => f x s
  | Raise e => (Raise e, s)
  end.
Proof. by destruct r. Qed.

Lemma setattr_bind_run {B} name v (f : unit → M B) (s : gmap string pyval) :
  (setattr name v ≫= f) s = f tt (<[name := v]> s).
Proof. reflexivity. Qed.

Lemma res_bind_Ok_eq {A B} (x : A) (f : A → res B) : Ok x ≫= f = f x.
Proof. reflexivity. Qed.

Lemma res_bind_Raise_eq {A B} e (f : A → res B) : Raise e ≫= f = Raise e.
Proof. reflexivity. Qed.

Lemma init_layer_run a n (s : gmap string pyval) f l :
  s !! "n_features" = Some (PyInt f) →
  s !! "esn_layers" = Some (PyList l) →
  match layer_cell a n with
  | Ok c =>
      init_layer a n s =
      (Ok tt, <["esn_layers" := PyList (l ++ [PyESNCell c])]>
                (<["n_features" := PyInt (f + c_input_dim c)]> s))
  | Raise e => (init_layer a n s).1 = Raise e
  end.
Proof.
  intros Hf Hl. unfold layer_cell, init_layer.
  set (d := if decide (n = 0%nat) then _ else py_index _ _).
  replace (if decide (n = 0%nat) then mret (a_input_dim a)
           else lift (py_index (a_hidden_dim a) (n - 1)))
    with (lift (A:=Z) d) by (subst d; by case_decide).
  rewrite lift_bind_run.
  destruct d as [d|e]; [rewrite res_bind_Ok_eq | by rewrite res_bind_Raise_eq].
  rewrite bind_run, (getattr_int_Some _ _ _ Hf), setattr_bind_run.
  do 6 (rewrite lift_bind_run;
    match goal with
    | |- context [@mbind res _ _ _ _ ?r] =>
        destruct r; [rewrite res_bind_Ok_eq | by rewrite res_bind_Raise_eq]
    end).
  rewrite bind_run, (getattr_list_Some _ l) by by rewrite lookup_insert_ne.
  rewrite lift_bind_run.
  destruct (py_index (a_hidden_dim a) n); reflexivity.
Qed.

Lemma for_in_run a ns : ∀ (s : gmap string pyval) f l,
  s !! "n_features" = Some (PyInt f) →
  s !! "esn_layers" = Some (PyList l) →
  match mapM (layer_cell a) ns with
  | Ok cs =>
      ∃ s', for_in ns (init_layer a) s = (Ok tt, s')
        ∧ s' !! "n_features" = Some (PyInt (f + sum (c_input_dim <$> cs)))
        ∧ s' !! "esn_layers" = Some (PyList (l ++ (PyESNCell <$> cs)))
        ∧ ∀ k, k ≠ "n_features" → k ≠ "esn_layers" → s' !! k = s !! k
  | Raise e => (for_in ns (init_layer a) s).1 = Raise e
  end.
Proof.
  induction ns as [|n ns IH]; intros s f l Hf Hl.
  - exists s. cbn. rewrite Z.add_0_r, app_nil_r. done.
  - cbn [mapM for_in]. rewrite bind_run.
    pose proof (init_layer_run a n s f l Hf Hl) as Hn.
    destruct (layer_cell a n) as [c|e];
      [rewrite res_bind_Ok_eq | by rewrite res_bind_Raise_eq; destruct (init_layer a n s) as [[] ?]; simpl in *; congruence].
    rewrite Hn.
    specialize (IH (<["esn_layers" := PyList (l ++ [PyESNCell c])]>
                (<["n_features" := PyInt (f + c_input_dim c)]> s)) (f + c_input_dim c) (l ++ [PyESNCell c])).
    rewrite lookup_insert_ne, lookup_insert_eq in IH by done.
    rewrite lookup_insert_eq in IH.
    specialize (IH eq_refl eq_refl).
    destruct (mapM (layer_cell a) ns) as [cs|e];
      [rewrite res_bind_Ok_eq | by rewrite res_bind_Raise_eq].
    destruct IH as (s' & Hrun & Hf' & Hl' & Hk).
    exists s'. split; [done|]. cbn [fmap list_fmap sum foldr].
    split; [rewrite Hf'; do 2 f_equal; unfold sum; lia|].
    split; [by rewrite Hl', <- app_assoc|].
    intros k ??. rewrite Hk by done. by rewrite !lookup_insert_ne.
Qed.


Lemma construct_run a :
  match mapM (layer_cell a) (seq 0 (length (a_hidden_dim a))) with
  | Ok cs =>
      ∃ s, construct a = Ok s
        ∧ s !! "training" = Some (PyBool true)
        ∧ s !! "n_layers" = Some (PyInt (Z.of_nat (length (a_hidden_dim a))))
        ∧ s !! "n_features" = Some (PyInt (sum (c_input_dim <$> cs)))
        ∧ s !! "esn_layers" = Some (PyList (PyESNCell <$> cs))
        ∧ s !! "output" =
            Some (RRCell_new (sum (c_input_dim <$> cs)) (a_output_dim a)
                    (a_ridge_param a) (a_feedbacks a) (a_with_bias a)
                    (a_learning_algo a))
        ∧ ∀ k, k ∉ ["training"; "n_layers"; "n_features"; "esn_layers"; "output"]
               → s !! k = None
  | Raise e => construct a = Raise e
  end.
Proof.
  unfold construct, __init__, nn.Module_init.
  rewrite !setattr_bind_run, bind_run.
  rewrite (getattr_int_Some _ (Z.of_nat (length (a_hidden_dim a))))
    by (do 2 (rewrite lookup_insert_ne by done); apply lookup_insert_eq).
  unfold range. rewrite Nat2Z.id, bind_run.
  match goal with |- context [for_in _ _ ?s0] => set (s := s0) end.
  pose proof (for_in_run a (seq 0 (length (a_hidden_dim a))) s 0 []) as H.
  specialize (H eq_refl eq_refl).
  destruct (mapM _ _) as [cs|e].
  - destruct H as (s' & -> & Hf & Hl & Hk).
    rewrite bind_run, (getattr_int_Some _ _ _ Hf). cbn [setattr].
    rewrite Z.add_0_l in *. cbn [app] in Hl.
    eexists. split; [reflexivity|].
    rewrite lookup_insert_eq, !lookup_insert_ne, !Hk by done.

    repeat split; try done.
    intros k Hk'. rewrite !not_elem_of_cons in Hk'.
    destruct Hk' as (? & ? & ? & ? & ? & _).
    rewrite lookup_insert_ne, Hk by done.
    subst s. by rewrite !lookup_insert_ne.
  - destruct (for_in _ _ s) as [[|e'] s']; simpl in H; [done|].
    by injection H as ->.
Qed.

(** *** What a successful construction built *)

Lemma mapM_res_Ok {A B} (f : A → res B) ns cs :
  mapM f ns = Ok cs → Forall2 (λ n c, f n = Ok c) ns cs.
Proof.
  revert cs. induction ns as [|n ns IH]; intros cs; cbn [mapM].
  - intros [= <-]. constructor.
  - intros (c & Hc & H)%res_bind_Ok. apply res_bind_Ok in H as (cs' & Hcs & [= <-]).
    constructor; auto.
Qed.

Lemma mapM_res_total {A B} (f : A → res B) ns :
  Forall (λ n, ∃ c, f n = Ok c) ns → ∃ cs, mapM f ns = Ok cs.
Proof.
  induction 1 as [|n ns [c Hc] _ [cs Hcs]]; cbn [mapM].
  - by exists [].
  - exists (c :: cs). by rewrite Hc, res_bind_Ok_eq, Hcs.
Qed.

Lemma mapM_res_Raise {A B} (f : A → res B) ns e :
  mapM f ns = Raise e → ∃ n, n ∈ ns ∧ f n = Raise e.
Proof.
  induction ns as [|n ns IH]; cbn [mapM]; [done|].
  intros [H | (c & Hc & H)]%res_bind_Raise.
  - exists n. split; [left | done].
  - apply res_bind_Raise in H as [H | (? & _ & [=])].
    destruct (IH H) as (m & ? & ?). exists m. split; [by right | done].
Qed.

Lemma layer_cell_Ok a n c :
  layer_cell a n = Ok c →
  (if decide (n = 0%nat) then Ok (a_input_dim a)
   else py_index (a_hidden_dim a) (n - 1)) = Ok (c_input_dim c)
  ∧ py_index (a_hidden_dim a) n = Ok (c_output_dim c)
  ∧ layer_scalar (a_spectral_radius a) n = Ok (c_spectral_radius c)
  ∧ layer_scalar (a_bias_scaling a) n = Ok (c_bias_scaling c)
  ∧ layer_scalar (a_input_scaling a) n = Ok (c_input_scaling c)
  ∧ layer_w (a_w a) n = Ok (c_w c)
  ∧ layer_w_in (a_w_in a) n = Ok (c_w_in c)
  ∧ layer_w_bias (a_w_bias a) n = Ok (c_w_bias c)
  ∧ c_w_fdb c = PyNone
  ∧ c_feedbacks_dim c = a_output_dim a.
Proof.
  unfold layer_cell. intros H.
  repeat (apply res_bind_Ok in H as (? & ? & H)).
  injection H as <-. cbn. done.
Qed.

Lemma construct_Ok a s :
  construct a = Ok s →
  ∃ cs, Forall2 (λ n c, layer_cell a n = Ok c)
          (seq 0 (length (a_hidden_dim a))) cs
    ∧ s !! "training" = Some (PyBool true)
    ∧ s !! "n_layers" = Some (PyInt (Z.of_nat (length (a_hidden_dim a))))
    ∧ s !! "n_features" = Some (PyInt (sum (c_input_dim <$> cs)))
    ∧ s !! "esn_layers" = Some (PyList (PyESNCell <$> cs))
    ∧ s !! "output" =
        Some (RRCell_new (sum (c_input_dim <$> cs)) (a_output_dim a)
                (a_ridge_param a) (a_feedbacks a) (a_with_bias a)
                (a_learning_algo a))
    ∧ ∀ k, k ∉ ["training"; "n_layers"; "n_features"; "esn_layers"; "output"]
           → s !! k = None.
Proof.
  intros Hs. pose proof (construct_run a) as H.
  destruct (mapM _ _) as [cs|e] eqn:Hcs; [|congruence].
  destruct H as (s' & Hs' & H). assert (s' = s) as -> by congruence.
  exists cs. split; [by apply mapM_res_Ok | done].
Qed.

Lemma cell_at_construct a s i c :
  construct a = Ok s →
  cell_at s i = Some c ↔
  (i < length (a_hidden_dim a))%nat ∧ layer_cell a i = Ok c.
Proof.
  intros (cs & Hcs & _ & _ & _ & Hl & _)%construct_Ok.
  unfold cell_at. rewrite Hl, list_lookup_fmap.
  split.
  - destruct (cs !! i) as [c'|] eqn:Hi; [|done]. intros [= ->].
    destruct (Forall2_lookup_r _ _ _ _ _ Hcs Hi) as (n & Hn & Hc).
    apply lookup_seq in Hn as [-> ?]. done.
  - intros [Hi Hc].
    assert (seq 0 (length (a_hidden_dim a)) !! i = Some i) as Hn
      by by apply lookup_seq.
    destruct (Forall2_lookup_l _ _ _ _ _ Hcs Hn) as (c' & -> & Hc').
    cbn. congruence.
Qed.

Lemma cell_at_exists a s i :
  construct a = Ok s → (i < length (a_hidden_dim a))%nat →
  ∃ c, cell_at s i = Some c.
Proof.
  intros Hs Hi. destruct (construct_Ok _ _ Hs) as (cs & Hcs & _).
  assert (seq 0 (length (a_hidden_dim a)) !! i = Some i) as Hn
    by by apply lookup_seq.
  destruct (Forall2_lookup_l _ _ _ _ _ Hcs Hn) as (c & _ & Hc).
  exists c. by apply (cell_at_construct a).
Qed.

Lemma sum_cons x xs : sum (x :: xs) = x + sum xs.
Proof. reflexivity. Qed.

Lemma sum_input_dims a m : ∀ k cs,
  (1 ≤ k)%nat →
  Forall2 (λ n c, layer_cell a n = Ok c) (seq k m) cs →
  sum (c_input_dim <$> cs) = sum (take m (drop (k - 1) (a_hidden_dim a))).
Proof.
  induction m as [|m IH]; intros k cs Hk; cbn [seq].
  - intros ->%Forall2_nil_inv_l. done.
  - intros (c & cs' & Hc & Hcs & ->)%Forall2_cons_inv_l.
    apply layer_cell_Ok in Hc as (Hd & _).
    case_decide; [lia|]. unfold py_index in Hd.
    destruct (a_hidden_dim a !! (k - 1)%nat) as [x|] eqn:Hx; [|done].
    injection Hd as ->. rewrite (drop_S _ _ _ Hx).
    rewrite fmap_cons, firstn_cons, !sum_cons, (IH (S k) cs') by (done || lia).
    do 4 f_equal. lia.
Qed.

(** *** Claims on the constructor *)

(** C2.  Whenever construction succeeds with at least one layer,
    [self.n_features] is the sum of the per-layer input widths,
    [input_dim + hidden_dim[0] + ... + hidden_dim[n_layers-2]], and the
    readout is constructed with exactly this number as its input width. *)
Theorem n_features_sums_input_widths a s :
  construct a = Ok s →
  (1 ≤ length (a_hidden_dim a))%nat →
  let F := a_input_dim a
           + sum (take (length (a_hidden_dim a) - 1) (a_hidden_dim a)) in
  s !! "n_features" = Some (PyInt F)
  ∧ ∃ r, s !! "output" = Some (PyRRCell r) ∧ rr_input_dim r = F.
Proof.
  intros (cs & Hcs & _ & _ & Hf & _ & Ho & _)%construct_Ok HN F.
  assert (sum (c_input_dim <$> cs) = F) as HF.
  { subst F. destruct (length (a_hidden_dim a)) as [|m]; [lia|].
    cbn [seq] in Hcs.
    apply Forall2_cons_inv_l in Hcs as (c & cs' & Hc & Hcs & ->).
    apply layer_cell_Ok in Hc as (Hd & _). rewrite decide_True in Hd by done.
    injection Hd as Hd.
    rewrite fmap_cons, sum_cons, <- Hd, (sum_input_dims a m 1 cs') by done.
    cbn [drop Nat.sub]. by rewrite Nat.sub_0_r. }
  rewrite HF in Hf, Ho. split; [done|]. eexists. split; [exact Ho | done].
Qed.

(** C3.  A constructed stack records [n_layers = len(hidden_dim)], holds
    exactly that many cells, cell [i] having hidden width
    [hidden_dim[i]]; cell 0 has input width [input_dim] and every later
    cell has input width [hidden_dim[i-1]], the hidden width of the cell
    before it. *)
Theorem layers_are_chained a s :
  construct a = Ok s →
  s !! "n_layers" = Some (PyInt (Z.of_nat (length (a_hidden_dim a))))
  ∧ (∃ l, s !! "esn_layers" = Some (PyList l)
        ∧ length l = length (a_hidden_dim a))
  ∧ (∀ i, (i < length (a_hidden_dim a))%nat →
       ∃ c, cell_at s i = Some c
         ∧ a_hidden_dim a !! i = Some (c_output_dim c))
  ∧ (∀ c, cell_at s 0 = Some c → c_input_dim c = a_input_dim a)
  ∧ (∀ i c, cell_at s (S i) = Some c →
       a_hidden_dim a !! i = Some (c_input_dim c)
       ∧ ∃ c', cell_at s i = Some c' ∧ c_input_dim c = c_output_dim c').
Proof.
  intros Hs. pose proof (cell_at_construct a s) as Hat.
  destruct (construct_Ok _ _ Hs) as (cs & Hcs & _ & Hn & _ & Hl & _).
  split; [done|]. split.
  { eexists. split; [done|].
    by rewrite length_fmap, <- (Forall2_length _ _ _ Hcs), length_seq. }
  assert (∀ i c, layer_cell a i = Ok c →
            a_hidden_dim a !! i = Some (c_output_dim c)) as Hout.
  { intros i c (_ & Ho & _)%layer_cell_Ok. unfold py_index in Ho.
    destruct (a_hidden_dim a !! i); congruence. }
  split; [|split].
  - intros i Hi. destruct (cell_at_exists _ _ _ Hs Hi) as [c Hc].
    exists c. split; [done|]. apply Hat in Hc as [_ Hc]; eauto.
  - intros c [_ Hc]%Hat; [|done].
    apply layer_cell_Ok in Hc as (Hd & _). rewrite decide_True in Hd by done.
    congruence.
  - intros i c [Hi Hc]%Hat; [|done].
    apply layer_cell_Ok in Hc as (Hd & _). rewrite decide_False in Hd by done.
    replace (S i - 1)%nat with i in Hd by lia. unfold py_index in Hd.
    destruct (a_hidden_dim a !! i) as [x|] eqn:Hx; [|done]. injection Hd as ->.
    split; [done|].
    destruct (cell_at_exists _ _ i Hs) as [c' Hc']; [lia|].
    exists c'. split; [done|]. apply Hat in Hc' as [_ Hc']; [|done].
    apply Hout in Hc'. congruence.
Qed.

Lemma layer_cell_scalar p a n c :
  layer_cell a n = Ok c → layer_scalar (scalar_arg p a) n = Ok (scalar_of p c).
Proof. intros H%layer_cell_Ok. destruct p; cbn; tauto. Qed.

Lemma layer_cell_tensor p a n c :
  layer_cell a n = Ok c →
  layer_tensor (stacked_ndim p) (tensor_arg p a) n = Ok (tensor_of p c).
Proof. intros H%layer_cell_Ok. destruct p; cbn; tauto. Qed.

(** C6.  For each of [spectral_radius], [bias_scaling] and
    [input_scaling]: with three layers, the list [[x, y, z]] gives [x],
    [y], [z] to the cells 0, 1, 2; a value that is not a list is given
    unchanged to the cell of every layer, whatever the number of
    layers. *)
Theorem scalar_resolution p a s :
  construct a = Ok s →
  (∀ x y z,
     length (a_hidden_dim a) = 3%nat →
     scalar_arg p a = PyList [x; y; z] →
     ∃ c0 c1 c2,
       cell_at s 0 = Some c0 ∧ cell_at s 1 = Some c1 ∧ cell_at s 2 = Some c2
       ∧ scalar_of p c0 = x ∧ scalar_of p c1 = y ∧ scalar_of p c2 = z)
  ∧ (is_list (scalar_arg p a) = false →
     ∀ i, (i < length (a_hidden_dim a))%nat →
       ∃ c, cell_at s i = Some c ∧ scalar_of p c = scalar_arg p a).
Proof.
  intros Hs. pose proof (cell_at_construct a s) as Hat. split.
  - intros x y z HN Hp.
    destruct (cell_at_exists a s 0 Hs) as [c0 H0]; [lia|].
    destruct (cell_at_exists a s 1 Hs) as [c1 H1]; [lia|].
    destruct (cell_at_exists a s 2 Hs) as [c2 H2]; [lia|].
    exists c0, c1, c2. repeat (split; [done|]).
    apply Hat in H0 as [_ H0], H1 as [_ H1], H2 as [_ H2]; try done.
    apply (layer_cell_scalar p) in H0, H1, H2. rewrite Hp in H0, H1, H2.
    cbn in H0, H1, H2. by injection H0 as <-; injection H1 as <-; injection H2 as <-.
  - intros Hp i Hi. destruct (cell_at_exists a s i Hs Hi) as [c Hc].
    exists c. split; [done|]. apply Hat in Hc as [_ Hc]; [|done].
    apply (layer_cell_scalar p) in Hc.
    destruct (scalar_arg p a); cbn in Hc, Hp; congruence.
Qed.

(** C5, as amended.  For each of [w], [w_in] and [w_bias], in a stack
    that was constructed: a tensor with the stacked number of dimensions
    (3 for [w] and [w_in], 2 for [w_bias]) gives layer [i] its slice at
    index [i], whatever its leading dimension; a tensor with any other
    number of dimensions is passed unchanged to every layer; [None] is
    passed as [None]. *)
Theorem tensor_resolution p a s i :
  construct a = Ok s →
  (i < length (a_hidden_dim a))%nat →
  ∃ c, cell_at s i = Some c
    ∧ (∀ t, tensor_arg p a = PyTensor t →
         ndim t = stacked_ndim p →
         ∃ ti, tensor_index t i = Ok ti ∧ tensor_of p c = PyTensor ti)
    ∧ (∀ t, tensor_arg p a = PyTensor t →
         ndim t ≠ stacked_ndim p →
         tensor_of p c = PyTensor t)
    ∧ (tensor_arg p a = PyNone → tensor_of p c = PyNone).
Proof.
  intros Hs Hi. destruct (cell_at_exists a s i Hs Hi) as [c Hc].
  exists c. split; [done|].
  apply (cell_at_construct a s) in Hc as [_ Hc]; [|done].
  apply (layer_cell_tensor p) in Hc. unfold layer_tensor in Hc.
  split; [|split].
  - intros t Ht Hnd. rewrite Ht, decide_True in Hc by done.
    destruct (tensor_index t i) as [ti|]; [|done].
    exists ti. split; [done|]. cbn in Hc. congruence.
  - intros t Ht Hnd. rewrite Ht, decide_False in Hc by done. congruence.
  - intros Ht. rewrite Ht in Hc. congruence.
Qed.

(** C10.  Two constructor calls that differ only in [w_fdb] have the
    same outcome, and every cell of a constructed stack was given [None]
    in the feedback-weight position and [output_dim] as its feedback
    width.  (A cell is the record of its constructor arguments; what
    [ESNCell] draws at random from them is outside the stack.) *)
Theorem w_fdb_has_no_effect a a' :
  with_w_fdb PyNone a = with_w_fdb PyNone a' →
  construct a = construct a'
  ∧ ∀ s i c, construct a = Ok s → cell_at s i = Some c →
      c_w_fdb c = PyNone ∧ c_feedbacks_dim c = a_output_dim a.
Proof.
  intros Heq. split.
  - change (construct (with_w_fdb PyNone a) = construct (with_w_fdb PyNone a')).
    by rewrite Heq.
  - intros s i c Hs [_ Hc]%(cell_at_construct a); [|done].
    apply layer_cell_Ok in Hc. tauto.
Qed.

(** *** Which configurations construct *)

Lemma scalar_fits_Ok p N n :
  scalar_fits p N = true → (n < N)%nat → ∃ v, layer_scalar p n = Ok v.
Proof.
  destruct p; cbn; eauto. intros HN%Nat.leb_le Hn. unfold py_index.
  destruct (lookup_lt_is_Some_2 l n) as [x ->]; [lia | eauto].
Qed.

Lemma scalar_fits_Raise p N :
  scalar_fits p N = false →
  (0 < N)%nat ∧ ∀ v, layer_scalar p (N - 1) ≠ Ok v.
Proof.
  destruct p; cbn; try done. intros HN%Nat.leb_gt. split; [lia|].
  intros v. unfold py_index. rewrite lookup_ge_None_2 by lia. done.
Qed.

Lemma tensor_fits_Ok k p N n :
  tensor_fits k p N = true → (n < N)%nat → ∃ v, layer_tensor k p n = Ok v.
Proof.
  destruct p; cbn; eauto. case_decide; eauto. intros HN%Nat.leb_le Hn.
  unfold tensor_index. destruct (shape t) as [|d rest]; cbn in HN; [lia|].
  rewrite decide_True by lia. cbn. eauto.
Qed.

Lemma tensor_fits_Raise k p N :
  tensor_fits k p N = false →
  (0 < N)%nat ∧ ∀ v, layer_tensor k p (N - 1) ≠ Ok v.
Proof.
  destruct p; cbn; try done. case_decide; [|done]. intros HN%Nat.leb_gt.
  split; [lia|]. intros v. unfold tensor_index.
  destruct (shape t) as [|d rest]; cbn in HN; [done|].
  rewrite decide_False by lia. done.
Qed.

Lemma sized_layer_cell a n :
  sized a = true → (n < length (a_hidden_dim a))%nat →
  ∃ c, layer_cell a n = Ok c.
Proof.
  unfold sized. rewrite !andb_true_iff.
  intros (((((H1 & H2) & H3) & H4) & H5) & H6) Hn.
  destruct (scalar_fits_Ok _ _ n H1 Hn) as [v1 E1].
  destruct (scalar_fits_Ok _ _ n H2 Hn) as [v2 E2].
  destruct (scalar_fits_Ok _ _ n H3 Hn) as [v3 E3].
  destruct (tensor_fits_Ok _ _ _ n H4 Hn) as [v4 E4].
  destruct (tensor_fits_Ok _ _ _ n H5 Hn) as [v5 E5].
  destruct (tensor_fits_Ok _ _ _ n H6 Hn) as [v6 E6].
  destruct (lookup_lt_is_Some_2 (a_hidden_dim a) n Hn) as [h Hh].
  assert (∃ d, (if decide (n = 0%nat) then Ok (a_input_dim a)
                else py_index (a_hidden_dim a) (n - 1)) = Ok d) as [d Hd].
  { case_decide; [eauto|]. unfold py_index.
    destruct (lookup_lt_is_Some_2 (a_hidden_dim a) (n - 1)) as [x ->];
      [lia | eauto]. }
  assert (py_index (a_hidden_dim a) n = Ok h) as Hh'
    by (unfold py_index; by rewrite Hh).
  unfold layer_cell, layer_w, layer_w_in, layer_w_bias.
  rewrite Hd, E1, E2, E3, E4, E5, E6, Hh'. eauto.
Qed.

Lemma unsized_layer_cell a :
  sized a = false →
  (0 < length (a_hidden_dim a))%nat
  ∧ ∀ c, layer_cell a (length (a_hidden_dim a) - 1) ≠ Ok c.
Proof.
  unfold sized. rewrite !andb_false_iff.
  intros H.
  assert (∀ (f : ESNCell → pyval) r,
            ((0 < length (a_hidden_dim a))%nat ∧ ∀ v, r ≠ Ok v) →
            (∀ c, layer_cell a (length (a_hidden_dim a) - 1) = Ok c → r = Ok (f c)) →
            (0 < length (a_hidden_dim a))%nat
            ∧ ∀ c, layer_cell a (length (a_hidden_dim a) - 1) ≠ Ok c) as Hgo.
  { intros f r [HN Hr] Hc. split; [done|]. intros c E. by apply (Hr (f c)), Hc. }
  destruct H as [[[[[H|H]|H]|H]|H]|H].
  - apply (Hgo c_spectral_radius _ (scalar_fits_Raise _ _ H)).
    intros c Hc%layer_cell_Ok. tauto.
  - apply (Hgo c_bias_scaling _ (scalar_fits_Raise _ _ H)).
    intros c Hc%layer_cell_Ok. tauto.
  - apply (Hgo c_input_scaling _ (scalar_fits_Raise _ _ H)).
    intros c Hc%layer_cell_Ok. tauto.
  - apply (Hgo c_w _ (tensor_fits_Raise _ _ _ H)).
    intros c Hc%layer_cell_Ok. tauto.
  - apply (Hgo c_w_in _ (tensor_fits_Raise _ _ _ H)).
    intros c Hc%layer_cell_Ok. tauto.
  - apply (Hgo c_w_bias _ (tensor_fits_Raise _ _ _ H)).
    intros c Hc%layer_cell_Ok. tauto.
Qed.

Lemma construct_sized a : sized a = true → ∃ s, construct a = Ok s.
Proof.
  intros Hz. pose proof (construct_run a) as H.
  destruct (mapM_res_total (layer_cell a) (seq 0 (length (a_hidden_dim a))))
    as [cs Hcs].
  { apply Forall_forall. intros n [_ Hn]%elem_of_seq.
    apply sized_layer_cell; [done | lia]. }
  rewrite Hcs in H. destruct H as (s & Hs & _). eauto.
Qed.

Lemma construct_unsized a : sized a = false → construct a = Raise IndexError.
Proof.
  intros [HN Hz]%unsized_layer_cell. pose proof (construct_run a) as H.
  destruct (mapM _ _) as [cs|e] eqn:Hcs.
  - apply mapM_res_Ok in Hcs.
    assert (seq 0 (length (a_hidden_dim a)) !! (length (a_hidden_dim a) - 1)%nat
            = Some (length (a_hidden_dim a) - 1)%nat) as Hn
      by (apply lookup_seq; lia).
    destruct (Forall2_lookup_l _ _ _ _ _ Hcs Hn) as (c & _ & Hc).
    by destruct (Hz c).
  - apply mapM_res_Raise in Hcs as (n & _ & ->%layer_cell_raise). done.
Qed.

Lemma construct_raise a e : construct a = Raise e → e = IndexError.
Proof.
  pose proof (construct_run a) as H.
  destruct (mapM _ _) as [cs|e'] eqn:Hcs.
  - destruct H as (s & -> & _). done.
  - apply mapM_res_Raise in Hcs as (n & _ & ->%layer_cell_raise). congruence.
Qed.

(** C4, as amended.  The constructor validates nothing and never raises
    a [ConfigurationError].  When every per-layer list has at least
    [n_layers] entries and every stacked tensor at least [n_layers]
    slices ([sized]), construction succeeds and layer [i] receives entry
    [i] of each list, the surplus entries being ignored; otherwise it
    raises [IndexError].  In particular a list shorter than [n_layers]
    raises [IndexError], and an empty [hidden_dim] constructs a stack
    with no cell, [n_features = 0] and a readout of input width 0. *)
Theorem construction_is_not_validated a :
  construct a ≠ Raise ConfigurationError
  ∧ (if sized a
     then ∃ s, construct a = Ok s
            ∧ ∀ p l i, scalar_arg p a = PyList l →
                (i < length (a_hidden_dim a))%nat →
                ∃ c, cell_at s i = Some c ∧ l !! i = Some (scalar_of p c)
     else construct a = Raise IndexError)
  ∧ (∀ p l, scalar_arg p a = PyList l →
       (length l < length (a_hidden_dim a))%nat →
       construct a = Raise IndexError)
  ∧ (a_hidden_dim a = [] →
       ∃ s, construct a = Ok s
         ∧ s !! "esn_layers" = Some (PyList [])
         ∧ s !! "n_features" = Some (PyInt 0)
         ∧ ∃ r, s !! "output" = Some (PyRRCell r) ∧ rr_input_dim r = 0).
Proof.
  split; [|split; [|split]].
  - intros H%construct_raise. discriminate H.
  - destruct (sized a) eqn:Hz; [|by apply construct_unsized].
    destruct (construct_sized a Hz) as [s Hs]. exists s. split; [done|].
    intros p l i Hp Hi. destruct (cell_at_exists a s i Hs Hi) as [c Hc].
    exists c. split; [done|].
    apply (cell_at_construct a s) in Hc as [_ Hc]; [|done].
    apply (layer_cell_scalar p) in Hc. rewrite Hp in Hc. cbn in Hc.
    unfold py_index in Hc. destruct (l !! i); congruence.
  - intros p l Hp Hl. apply construct_unsized. unfold sized.
    assert (scalar_fits (scalar_arg p a) (length (a_hidden_dim a)) = false) as Hf.
    { rewrite Hp. cbn. apply Nat.leb_gt. lia. }
    destruct p; cbn in Hf; rewrite Hf; cbn; rewrite ?andb_false_r; done.
  - intros Hh. pose proof (construct_run a) as H. rewrite Hh in H. cbn in H.
    destruct H as (s & Hs & _ & _ & Hf & Hl & Ho & _).
    exists s. repeat (split; [done|]). eexists. split; [exact Ho | done].
Qed.

(** *** Methods *)

Lemma esn_cell_missing (s : gmap string pyval) :
  s !! "esn_cell" = None →
  hidden s = (Raise AttributeError, s)
  ∧ w s = (Raise AttributeError, s)
  ∧ w_in s = (Raise AttributeError, s)
  ∧ (∀ v, set_w v s = (Raise AttributeError, s))
  ∧ reset_hidden s = (Raise AttributeError, s)
  ∧ get_spectral_radius s = (Raise AttributeError, s).
Proof.
  intros H.
  unfold hidden, w, w_in, set_w, reset_hidden, get_spectral_radius, invoke.
  rewrite !bind_run, !(getattr_None _ _ H). repeat split.
  intros v. by rewrite bind_run, (getattr_None _ _ H).
Qed.

Lemma forward_feedbacks_missing (s : gmap string pyval) u y :
  s !! "feedbacks" = None → forward u y s = (Raise AttributeError, s).
Proof.
  intros H. unfold forward, and_then, test.
  by rewrite !bind_run, (getattr_None _ _ H).
Qed.

Lemma reset_run (s : gmap string pyval) r :
  s !! "output" = Some (PyRRCell r) →
  reset s =
  (Ok PyNone,
   nn.train_child true <$>
     <["training" := PyBool true]> (<["output" := PyRRCell (RRCell_reset r)]> s)).
Proof.
  intros H. unfold reset, invoke.
  by rewrite !bind_run, (getattr_Some _ _ _ H).
Qed.

Lemma finalize_run (s : gmap string pyval) r :
  s !! "output" = Some (PyRRCell r) →
  finalize s =
  match solve r with
  | Some wm =>
      (Ok PyNone,
       nn.train_child false <$>
         <["training" := PyBool false]>
           (<["output" := (RRCell_finalize r).2]> s))
  | None => (Raise NumericalError, <["output" := PyRRCell r]> s)
  end.
Proof.
  intros H. unfold finalize, invoke.
  rewrite !bind_run, (getattr_Some _ _ _ H). cbn. unfold RRCell_finalize.
  by destruct (solve r).
Qed.

Lemma get_w_out_run (s : gmap string pyval) r :
  s !! "output" = Some (PyRRCell r) → get_w_out s = (Ok (rr_w_out r), s).
Proof.
  intros H. unfold get_w_out. by rewrite bind_run, (getattr_Some _ _ _ H).
Qed.

(** *** The invariant of the reachable states *)

Lemma well_formed_train mode (s : gmap string pyval) :
  well_formed s →
  well_formed (nn.train_child mode <$> <["training" := PyBool mode]> s).
Proof.
  intros (Hc & Hf & [r Ho] & [l Hl]). unfold well_formed.
  rewrite !lookup_fmap, !lookup_insert_ne, Hc, Hf, Ho, Hl by done.
  cbn. repeat split; eauto.
Qed.

Lemma well_formed_output r (s : gmap string pyval) :
  well_formed s → well_formed (<["output" := PyRRCell r]> s).
Proof.
  intros (Hc & Hf & _ & Hl). unfold well_formed.
  rewrite lookup_insert_eq, !lookup_insert_ne by done. repeat split; eauto.
Qed.

Lemma well_formed_construct a s : construct a = Ok s → well_formed s.
Proof.
  intros (cs & _ & _ & _ & _ & Hl & Ho & Hk)%construct_Ok.
  unfold well_formed.
  rewrite !Hk by (rewrite !not_elem_of_cons; repeat split; try done;
                  apply not_elem_of_nil).
  unfold RRCell_new in Ho.
  repeat split; eauto.
Qed.

Lemma well_formed_run c (s : gmap string pyval) :
  well_formed s → well_formed (run c s).2.
Proof.
  intros Hwf. pose proof Hwf as (Hc & Hf & [r Ho] & _).
  destruct (esn_cell_missing s Hc) as (E1 & E2 & E3 & E4 & E5 & E6).
  destruct c; cbn [run].
  - by rewrite E1.
  - by rewrite E2.
  - by rewrite E3.
  - rewrite (reset_run s r Ho). cbn.
    by apply well_formed_train, well_formed_output.
  - by rewrite (get_w_out_run s r Ho).
  - by rewrite E4.
  - by rewrite forward_feedbacks_missing.
  - rewrite (finalize_run s r Ho). unfold RRCell_finalize.
    destruct (solve r); cbn.
    + by apply well_formed_train, well_formed_output.
    + by apply well_formed_output.
  - by rewrite E5.
  - by rewrite E6.
  - by apply well_formed_train.
Qed.

Lemma well_formed_reachable s : reachable s → well_formed s.
Proof.
  induction 1 as [a s Hs | c s _ IH].
  - by apply (well_formed_construct a).
  - by apply well_formed_run.
Qed.

(** *** Claims on the methods *)

(** C1.  What the code does instead of the forward-path state machine:
    in every state a client can reach, [self.feedbacks] is not defined
    and [forward(u, y)] raises [AttributeError] on its first line,
    before any layer is run and with the object unchanged. *)
Theorem forward_raises s u y :
  reachable s →
  s !! "feedbacks" = None ∧ forward u y s = (Raise AttributeError, s).
Proof.
  intros (_ & Hf & _)%well_formed_reachable.
  split; [done | by apply forward_feedbacks_missing].
Qed.

(** C9.  In every state a client can reach there is no attribute
    [esn_cell], and [hidden], [w], [w_in], [set_w(v)], [reset_hidden()]
    and [get_spectral_radius()] each raise [AttributeError], leaving the
    object unchanged. *)
Theorem esn_cell_accessors_raise s :
  reachable s →
  s !! "esn_cell" = None
  ∧ hidden s = (Raise AttributeError, s)
  ∧ w s = (Raise AttributeError, s)
  ∧ w_in s = (Raise AttributeError, s)
  ∧ (∀ v, set_w v s = (Raise AttributeError, s))
  ∧ reset_hidden s = (Raise AttributeError, s)
  ∧ get_spectral_radius s = (Raise AttributeError, s).
Proof.
  intros (Hc & _)%well_formed_reachable.
  split; [done | by apply esn_cell_missing].
Qed.

(** C7.  In every state a client can reach, [reset()] returns normally;
    afterwards the readout is the reset readout (no weight matrix, no
    accumulated statistics), [self.training] is [True], and
    [self.esn_layers], hence every cell, is what it was, as is every
    other attribute that is not a module. *)
Theorem reset_frame s :
  reachable s →
  ∃ r cells s',
    s !! "output" = Some (PyRRCell r)
    ∧ s !! "esn_layers" = Some (PyList cells)
    ∧ reset s = (Ok PyNone, s')
    ∧ s' !! "output" = Some (PyRRCell (RRCell_reset r))
    ∧ rr_w_out (RRCell_reset r) = PyNone
    ∧ rr_stats (RRCell_reset r) = []
    ∧ s' !! "training" = Some (PyBool true)
    ∧ s' !! "esn_layers" = Some (PyList cells)
    ∧ (∀ i, cell_at s' i = cell_at s i)
    ∧ (∀ k v, k ≠ "output" → k ≠ "training" → s !! k = Some v →
         (∀ r', v ≠ PyRRCell r') → s' !! k = Some v).
Proof.
  intros (_ & _ & [r Ho] & [l Hl])%well_formed_reachable.
  exists r, l. eexists. split; [done|]. split; [done|].
  split; [by apply reset_run|].
  assert (∀ k v, k ≠ "output" → k ≠ "training" → s !! k = Some v →
            (∀ r', v ≠ PyRRCell r') →
            (nn.train_child true <$> <["training":=PyBool true]>
               (<["output":=PyRRCell (RRCell_reset r)]> s)) !! k = Some v)
    as Hframe.
  { intros k v ?? Hk Hv. rewrite lookup_fmap, !lookup_insert_ne, Hk by done.
    cbn. f_equal. destruct v; try done. by destruct (Hv r0). }
  assert ((nn.train_child true <$> <["training":=PyBool true]>
             (<["output":=PyRRCell (RRCell_reset r)]> s)) !! "esn_layers"
          = Some (PyList l)) as Hl' by by apply Hframe.
  split.
  { by rewrite lookup_fmap, lookup_insert_ne, lookup_insert_eq. }
  do 2 (split; [done|]).
  split.
  { by rewrite lookup_fmap, lookup_insert_eq. }
  split; [done|]. split; [|done].
  intros i. unfold cell_at. by rewrite Hl', Hl.
Qed.

Lemma train_child_idemp mode v :
  nn.train_child mode (nn.train_child mode v) = nn.train_child mode v.
Proof. by destruct v. Qed.

(** C8.  In every state a client can reach, a second [reset()] returns
    what the first returned and leaves the whole object, mode and readout
    included, as the first left it. *)
Theorem reset_idempotent s :
  reachable s → reset (reset s).2 = reset s.
Proof.
  intros (_ & _ & [r Ho] & _)%well_formed_reachable.
  rewrite (reset_run s r Ho). cbn [snd].
  rewrite (reset_run _ (RRCell_reset r))
    by by rewrite lookup_fmap, lookup_insert_ne, lookup_insert_eq.
  f_equal. apply map_eq. intros k.
  rewrite !lookup_fmap.
  destruct (decide (k = "training")) as [->|].
  { by rewrite !lookup_insert_eq. }
  rewrite !(lookup_insert_ne _ "training") by done.
  destruct (decide (k = "output")) as [->|].
  { by rewrite !lookup_insert_eq. }
  rewrite !(lookup_insert_ne _ "output"), lookup_fmap by done.
  rewrite !(lookup_insert_ne _ "training"), !(lookup_insert_ne _ "output")
    by done.
  destruct (s !! k) as [v|]; [|done]. cbn. by rewrite train_child_idemp.
Qed.

(** *** Further properties of the constructor *)

Lemma layer_cell_shared a n c :
  layer_cell a n = Ok c →
  c_sparsity c = a_sparsity a
  ∧ c_input_set c = a_input_set a
  ∧ c_w_sparsity c = a_w_sparsity a
  ∧ c_nonlin_func c = a_nonlin_func a
  ∧ c_feedbacks c = a_feedbacks a
  ∧ c_wfdb_sparsity c = a_wfdb_sparsity a
  ∧ c_normalize_feedbacks c = a_normalize_feedbacks a.
Proof.
  unfold layer_cell. intros H.
  repeat (apply res_bind_Ok in H as (? & ? & H)).
  injection H as <-. cbn. done.
Qed.

(** X1.  Every cell of a constructed stack is given the constructor's
    [sparsity], [input_set], [w_sparsity], [nonlin_func], [feedbacks],
    [wfdb_sparsity] and [normalize_feedbacks] as they are: these are
    never resolved per layer, not even when one of them is a list. *)
Theorem cells_share_structural_parameters a s i c :
  construct a = Ok s →
  cell_at s i = Some c →
  c_sparsity c = a_sparsity a
  ∧ c_input_set c = a_input_set a
  ∧ c_w_sparsity c = a_w_sparsity a
  ∧ c_nonlin_func c = a_nonlin_func a
  ∧ c_feedbacks c = a_feedbacks a
  ∧ c_wfdb_sparsity c = a_wfdb_sparsity a
  ∧ c_normalize_feedbacks c = a_normalize_feedbacks a.
Proof.
  intros Hs [_ Hc]%(cell_at_construct a); [|done].
  by apply (layer_cell_shared a i).
Qed.

(** X2.  The readout of a constructed stack is built with the
    constructor's [output_dim], [ridge_param], [feedbacks], [with_bias]
    and [learning_algo], so that every cell has the readout's feedback
    flag and takes the readout's output width as its feedback width. *)
Theorem readout_agrees_with_cells a s :
  construct a = Ok s →
  ∃ r, s !! "output" = Some (PyRRCell r)
    ∧ rr_output_dim r = a_output_dim a
    ∧ rr_ridge_param r = a_ridge_param a
    ∧ rr_feedbacks r = a_feedbacks a
    ∧ rr_with_bias r = a_with_bias a
    ∧ rr_learning_algo r = a_learning_algo a
    ∧ ∀ i c, cell_at s i = Some c →
        c_feedbacks c = rr_feedbacks r ∧ c_feedbacks_dim c = rr_output_dim r.
Proof.
  intros Hs. destruct (construct_Ok _ _ Hs) as (cs & _ & _ & _ & _ & _ & Ho & _).
  eexists. split; [exact Ho|]. cbn. repeat (split; [done|]).
  intros i c [_ Hc]%(cell_at_construct a); [|done].
  pose proof (layer_cell_shared _ _ _ Hc). apply layer_cell_Ok in Hc. tauto.
Qed.


(** X4.  A stacked [w], [w_in] or [w_bias] with fewer slices than there
    are layers makes the constructor raise [IndexError]. *)
Theorem short_stack_raises p a t :
  tensor_arg p a = PyTensor t →
  ndim t = stacked_ndim p →
  (hd 0%nat (shape t) < length (a_hidden_dim a))%nat →
  construct a = Raise IndexError.
Proof.
  intros Hp Hn Hlt. apply construct_unsized. unfold sized.
  assert (tensor_fits (stacked_ndim p) (tensor_arg p a)
            (length (a_hidden_dim a)) = false) as Hf.
  { rewrite Hp. cbn. rewrite decide_True by done. apply Nat.leb_gt. lia. }
  destruct p; cbn in Hf; rewrite Hf; cbn; rewrite ?andb_false_r; done.
Qed.



(** X6.  Two constructor calls that differ only in [create_cell] have
    the same outcome: the argument is never read. *)
Theorem create_cell_has_no_effect a a' :
  with_create_cell PyNone a = with_create_cell PyNone a' →
  construct a = construct a'.
Proof.
  intros Heq.
  change (construct (with_create_cell PyNone a)
          = construct (with_create_cell PyNone a')).
  by rewrite Heq.
Qed.

Lemma sum_app xs ys : sum (xs ++ ys) = sum xs + sum ys.
Proof.
  induction xs as [|x xs IH]; [done|].
  rewrite <- app_comm_cons, !sum_cons, IH. lia.
Qed.

(** X7.  With [h] the width of the last layer, [n_features] is the sum
    of all hidden widths plus [input_dim] minus [h]; it is the total
    width of the hidden states exactly when [input_dim = h]. *)
Theorem feature_width_against_hidden_width a s h :
  construct a = Ok s →
  last (a_hidden_dim a) = Some h →
  ∃ F, s !! "n_features" = Some (PyInt F)
    ∧ F = sum (a_hidden_dim a) + a_input_dim a - h
    ∧ (F = sum (a_hidden_dim a) ↔ a_input_dim a = h).
Proof.
  intros (cs & Hcs & _ & _ & Hf & _)%construct_Ok [l Hl]%last_Some.
  eexists. split; [exact Hf|].
  assert (sum (c_input_dim <$> cs) = sum (a_hidden_dim a) + a_input_dim a - h)
    as ->; [|split; [done | lia]].
  rewrite Hl in Hcs |- *. rewrite length_app, Nat.add_1_r in Hcs. cbn [seq] in Hcs.
  apply Forall2_cons_inv_l in Hcs as (c & cs' & Hc & Hcs & ->).
  apply layer_cell_Ok in Hc as (Hd & _). rewrite decide_True in Hd by done.
  injection Hd as Hd.
  rewrite fmap_cons, sum_cons, <- Hd, (sum_input_dims a (length l) 1 cs')
    by done.
  cbn [Nat.sub]. rewrite drop_0, Hl, take_app_length, sum_app, sum_cons. cbn. lia.
Qed.

(** X8.  With a stacked [w], [w_in] or [w_bias], every cell receives a
    tensor of one and the same shape, the stack's shape without its
    leading dimension, whatever [hidden_dim] says of that layer; and a
    stack that constructed has more slices than the cell's index. *)
Theorem stacked_slices_share_one_shape p a s t i c :
  construct a = Ok s →
  tensor_arg p a = PyTensor t →
  ndim t = stacked_ndim p →
  cell_at s i = Some c →
  shape_of (tensor_of p c) = Some (tail (shape t))
  ∧ (i < hd 0%nat (shape t))%nat.
Proof.
  intros Hs Hp Hn [_ Hc]%(cell_at_construct a); [|done].
  apply (layer_cell_tensor p) in Hc. unfold layer_tensor in Hc.
  rewrite Hp, decide_True in Hc by done. unfold tensor_index in Hc.
  destruct (shape t) as [|d rest]; [done|]. case_decide; [|done].
  cbn in Hc. injection Hc as <-. done.
Qed.

(** *** Further properties of the methods *)

(** X9.  In every state a client can reach, [get_w_out()] returns the
    readout's [w_out] without raising and leaves the object unchanged. *)
Theorem get_w_out_returns s :
  reachable s →
  ∃ r, s !! "output" = Some (PyRRCell r)
    ∧ get_w_out s = (Ok (rr_w_out r), s).
Proof.
  intros (_ & _ & [r Ho] & _)%well_formed_reachable.
  exists r. split; [done | by apply get_w_out_run].
Qed.

Lemma run_frame c (s : gmap string pyval) k v :
  well_formed s →
  k ≠ "output" → k ≠ "training" →
  s !! k = Some v → (∀ r, v ≠ PyRRCell r) →
  (run c s).2 !! k = Some v.
Proof.
  intros Hwf Hko Hkt Hk Hv. pose proof Hwf as (Hc & Hf & [r Ho] & _).
  destruct (esn_cell_missing s Hc) as (E1 & E2 & E3 & E4 & E5 & E6).
  assert (nn.train_child true v = v ∧ nn.train_child false v = v) as [Ht Hf'].
  { destruct v; try done. by destruct (Hv r0). }
  assert (∀ mode, nn.train_child mode v = v) as Htc by (by intros []).
  destruct c; cbn [run].
  - by rewrite E1.
  - by rewrite E2.
  - by rewrite E3.
  - rewrite (reset_run s r Ho). cbn [snd].
    by rewrite lookup_fmap, !lookup_insert_ne, Hk; cbn; rewrite ?Htc.
  - by rewrite (get_w_out_run s r Ho).
  - by rewrite E4.
  - by rewrite forward_feedbacks_missing.
  - rewrite (finalize_run s r Ho). unfold RRCell_finalize.
    destruct (solve r); cbn [snd].
    + by rewrite lookup_fmap, !lookup_insert_ne, Hk; cbn; rewrite ?Htc.
    + by rewrite lookup_insert_ne.
  - by rewrite E5.
  - by rewrite E6.
  - change ((nn.train_child mode <$> <["training":=PyBool mode]> s) !! k
            = Some v).
    by rewrite lookup_fmap, !lookup_insert_ne, Hk; cbn; rewrite ?Htc.
Qed.

Lemma run_calls_frame cs : ∀ (s : gmap string pyval) k v,
  well_formed s →
  k ≠ "output" → k ≠ "training" →
  s !! k = Some v → (∀ r, v ≠ PyRRCell r) →
  run_calls cs s !! k = Some v ∧ well_formed (run_calls cs s).
Proof.
  induction cs as [|c cs IH]; intros s k v Hwf Hko Hkt Hk Hv; [done|].
  cbn [run_calls foldl]. apply IH; try done.
  - by apply well_formed_run.
  - by apply run_frame.
Qed.

(** X10.  No session changes what the constructor built: after any
    sequence of calls, returning or raising, [n_layers], [n_features]
    and [esn_layers], hence every cell, are as constructed. *)
Theorem configuration_is_immutable a s cs :
  construct a = Ok s →
  run_calls cs s !! "n_layers" = s !! "n_layers"
  ∧ run_calls cs s !! "n_features" = s !! "n_features"
  ∧ run_calls cs s !! "esn_layers" = s !! "esn_layers"
  ∧ ∀ i, cell_at (run_calls cs s) i = cell_at s i.
Proof.
  intros Hs. pose proof (well_formed_construct _ _ Hs) as Hwf.
  destruct (construct_Ok _ _ Hs) as (cells & _ & _ & Hn & Hf & Hl & _).
  assert (run_calls cs s !! "n_layers" = s !! "n_layers") as Hn'.
  { rewrite Hn. by apply run_calls_frame. }
  assert (run_calls cs s !! "n_features" = s !! "n_features") as Hf'.
  { rewrite Hf. by apply run_calls_frame. }
  assert (run_calls cs s !! "esn_layers" = s !! "esn_layers") as Hl'.
  { rewrite Hl. by apply run_calls_frame. }
  repeat (split; [done|]).
  intros i. unfold cell_at. by rewrite Hl'.
Qed.


(** X11.  In every state a client can reach, [finalize()] leaves every
    cell as it was; when it returns, it returns [None] with the stack
    and its readout both out of training mode; when the readout's
    [finalize] raises, [self.training] is left as it was. *)
Theorem finalize_outcome s :
  reachable s →
  (∀ i, cell_at (finalize s).2 i = cell_at s i)
  ∧ (∀ v, (finalize s).1 = Ok v →
       v = PyNone
       ∧ (finalize s).2 !! "training" = Some (PyBool false)
       ∧ ∃ r, (finalize s).2 !! "output" = Some (PyRRCell r)
           ∧ rr_training r = false)
  ∧ (∀ e, (finalize s).1 = Raise e →
       (finalize s).2 !! "training" = s !! "training").
Proof.
  intros Hwf%well_formed_reachable.
  pose proof Hwf as (_ & _ & [r Ho] & [l Hl]).
  split; [|split].
  - intros i. unfold cell_at.
    change (finalize s) with (run CallFinalize s).
    by rewrite (run_frame CallFinalize s "esn_layers" (PyList l)), Hl.
  - intros v. rewrite (finalize_run s r Ho). unfold RRCell_finalize.
    destruct (solve r) as [wm|]; [|done]. cbn [fst snd]. intros [= <-].
    split; [done|].
    rewrite !lookup_fmap, lookup_insert_eq, lookup_insert_ne, lookup_insert_eq
      by done.
    cbn. eauto.
  - intros e. rewrite (finalize_run s r Ho).
    destruct (solve r) as [wm|]; [done|]. cbn [fst snd]. intros _.
    by rewrite lookup_insert_ne.
Qed.







End Properties.

(** ** The claims at concrete configurations *)

Lemma built_Ok a : sized a = true → construct a = Ok (built a).
Proof.
  intros [s Hs]%construct_sized. unfold built. by rewrite Hs.
Qed.

Lemma reachable_built {C : Collaborators} a : sized a = true → reachable (built a).
Proof. intros H. by apply (reach_construct a), built_Ok. Qed.

Lemma forward_raises_witness :
  reachable (C := bare) (built ex_feedback_args)
  ∧ forward (C := bare) ex_u PyNone (built ex_feedback_args)
    = (Raise AttributeError, built ex_feedback_args).
Proof.
  assert (reachable (C := bare) (built ex_feedback_args)) as H
    by (apply reachable_built; reflexivity).
  split; [exact H|].
  exact (proj2 (forward_raises (C := bare) _ ex_u PyNone H)).
Defined.

Lemma n_features_sums_input_widths_witness :
  construct ex_args = Ok (built ex_args)
  ∧ (1 ≤ length (a_hidden_dim ex_args))%nat
  ∧ built ex_args !! "n_features" = Some (PyInt 8)
  ∧ ∃ r, built ex_args !! "output" = Some (PyRRCell r) ∧ rr_input_dim r = 8.
Proof.
  assert (construct ex_args = Ok (built ex_args)) as H
    by (apply built_Ok; reflexivity).
  assert (1 ≤ length (a_hidden_dim ex_args))%nat as HN by (simpl; lia).
  split; [exact H|]. split; [exact HN|].
  exact (n_features_sums_input_widths ex_args (built ex_args) H HN).
Defined.

Lemma layers_are_chained_witness :
  construct ex_args = Ok (built ex_args)
  ∧ ∃ c0 c1,
      cell_at (built ex_args) 0 = Some c0
      ∧ cell_at (built ex_args) 1 = Some c1
      ∧ c_input_dim c0 = 3
      ∧ c_input_dim c1 = c_output_dim c0.
Proof.
  assert (construct ex_args = Ok (built ex_args)) as H
    by (apply built_Ok; reflexivity).
  split; [exact H|].
  destruct (layers_are_chained ex_args (built ex_args) H)
    as (_ & _ & Hex & H0 & HS).
  destruct (Hex 1%nat) as (c1 & Hc1 & _); [simpl; lia|].
  destruct (HS 0%nat c1 Hc1) as (_ & c0 & Hc0 & Heq).
  exists c0, c1. repeat split; [exact Hc0 | exact Hc1 | exact (H0 c0 Hc0) | exact Heq].
Defined.

Lemma scalar_resolution_witness :
  construct ex_args3 = Ok (built ex_args3)
  ∧ ∃ c0 c1 c2,
      cell_at (built ex_args3) 0 = Some c0
      ∧ cell_at (built ex_args3) 1 = Some c1
      ∧ cell_at (built ex_args3) 2 = Some c2
      ∧ c_spectral_radius c0 = PyFloat (9 # 10)
      ∧ c_spectral_radius c1 = PyFloat (8 # 10)
      ∧ c_spectral_radius c2 = PyFloat (7 # 10).
Proof.
  assert (construct ex_args3 = Ok (built ex_args3)) as H
    by (apply built_Ok; reflexivity).
  split; [exact H|].
  exact (proj1 (scalar_resolution SpectralRadius ex_args3 (built ex_args3) H)
           _ _ _ eq_refl eq_refl).
Defined.

Lemma tensor_resolution_witness :
  construct ex_w_args = Ok (built ex_w_args)
  ∧ (1 < length (a_hidden_dim ex_w_args))%nat
  ∧ ∃ c ti,
      cell_at (built ex_w_args) 1 = Some c
      ∧ tensor_index ex_w 1 = Ok ti
      ∧ c_w c = PyTensor ti.
Proof.
  assert (construct ex_w_args = Ok (built ex_w_args)) as H
    by (apply built_Ok; reflexivity).
  assert (1 < length (a_hidden_dim ex_w_args))%nat as HN by (simpl; lia).
  split; [exact H|]. split; [exact HN|].
  destruct (tensor_resolution W ex_w_args (built ex_w_args) 1 H HN)
    as (c & Hc & Hstacked & _).
  destruct (Hstacked ex_w eq_refl eq_refl) as (ti & Hti & Hw).
  exists c, ti. repeat split; [exact Hc | exact Hti | exact Hw].
Defined.

Lemma construction_is_not_validated_witness :
  (∃ s, construct ex_long = Ok s)
  ∧ construct ex_short = Raise IndexError
  ∧ (∃ s, construct ex_empty = Ok s
        ∧ s !! "esn_layers" = Some (PyList []))
  ∧ construct ex_long ≠ Raise ConfigurationError.
Proof.
  destruct (construction_is_not_validated ex_long) as (Hne & Hlong & _).
  destruct (construction_is_not_validated ex_short) as (_ & _ & Hshort & _).
  destruct (construction_is_not_validated ex_empty) as (_ & _ & _ & Hempty).
  split; [|split; [|split]].
  - cbv beta iota delta [sized] in Hlong. simpl in Hlong.
    destruct Hlong as (s & Hs & _). exists s. exact Hs.
  - refine (Hshort SpectralRadius [PyFloat (9 # 10)] eq_refl _). simpl. lia.
  - destruct (Hempty eq_refl) as (s & Hs & Hl & _).
    exists s. split; [exact Hs | exact Hl].
  - exact Hne.
Defined.

Lemma w_fdb_has_no_effect_witness :
  with_w_fdb PyNone ex_args = with_w_fdb PyNone (with_w_fdb ex_u ex_args)
  ∧ construct ex_args = construct (with_w_fdb ex_u ex_args)
  ∧ construct ex_args = Ok (built ex_args)
  ∧ ∃ c, cell_at (built ex_args) 0 = Some c
      ∧ c_w_fdb c = PyNone ∧ c_feedbacks_dim c = 2.
Proof.
  assert (construct ex_args = Ok (built ex_args)) as H
    by (apply built_Ok; reflexivity).
  destruct (w_fdb_has_no_effect ex_args (with_w_fdb ex_u ex_args) eq_refl)
    as [Heq Hcell].
  split; [reflexivity|]. split; [exact Heq|]. split; [exact H|].
  destruct (cell_at_exists ex_args (built ex_args) 0 H) as [c Hc];
    [simpl; lia|].
  exists c. split; [exact Hc|]. exact (Hcell _ _ _ H Hc).
Defined.

Lemma reachable_ex_trained : reachable (C := bare) ex_trained.
Proof. apply reach_call, reachable_built. reflexivity. Qed.

Lemma esn_cell_accessors_raise_witness :
  reachable (C := bare) ex_trained
  ∧ hidden (C := bare) ex_trained = (Raise AttributeError, ex_trained)
  ∧ get_spectral_radius (C := bare) ex_trained
    = (Raise AttributeError, ex_trained).
Proof.
  split; [exact reachable_ex_trained|].
  destruct (esn_cell_accessors_raise (C := bare) ex_trained reachable_ex_trained)
    as (_ & Hh & _ & _ & _ & _ & Hg).
  split; [exact Hh | exact Hg].
Defined.

Lemma reset_frame_witness :
  reachable (C := bare) ex_trained
  ∧ ∃ s', reset (C := bare) ex_trained = (Ok PyNone, s')
      ∧ s' !! "training" = Some (PyBool true)
      ∧ ∀ i, cell_at s' i = cell_at ex_trained i.
Proof.
  split; [exact reachable_ex_trained|].
  destruct (reset_frame (C := bare) ex_trained reachable_ex_trained)
    as (r & cells & s' & _ & _ & Hr & _ & _ & _ & Ht & _ & Hc & _).
  exists s'. repeat split; [exact Hr | exact Ht | exact Hc].
Defined.

Lemma reset_idempotent_witness :
  reachable (C := bare) ex_trained
  ∧ reset (C := bare) (reset (C := bare) ex_trained).2
    = reset (C := bare) ex_trained.
Proof.
  split; [exact reachable_ex_trained|].
  exact (reset_idempotent (C := bare) ex_trained reachable_ex_trained).
Defined.

(** C4, as stated, fails: the configuration section 8 gives as invalid
    (two layers, three spectral radii) and an empty [hidden_dim] both
    construct, and one spectral radius for two layers raises
    [IndexError]; none raises [ConfigurationError]. *)
Lemma mismatch_is_not_rejected :
  construct ex_long = Ok (built ex_long)
  ∧ construct ex_long ≠ Raise ConfigurationError
  ∧ construct ex_empty = Ok (built ex_empty)
  ∧ construct ex_empty ≠ Raise ConfigurationError
  ∧ construct ex_short = Raise IndexError.
Proof.
  assert (construct ex_long = Ok (built ex_long)) as H1
    by (vm_compute; reflexivity).
  assert (construct ex_empty = Ok (built ex_empty)) as H2
    by (vm_compute; reflexivity).
  repeat split; try done; try congruence.
Qed.

(** C5, as stated, fails for [w_bias]: a single 3 x 2 matrix, whose
    leading dimension is not the number of layers (2), is not passed
    unchanged; layer 0 receives its first row. *)
Lemma bias_matrix_is_sliced :
  a_w_bias ex_bias_args = PyTensor ex_bias
  ∧ ndim ex_bias = 2%nat
  ∧ hd 0%nat (shape ex_bias) ≠ length (a_hidden_dim ex_bias_args)
  ∧ construct ex_bias_args = Ok (built ex_bias_args)
  ∧ ∃ c, cell_at (built ex_bias_args) 0 = Some c
      ∧ c_w_bias c = PyTensor (mkTensor [2]%nat [inject_Z 1; inject_Z 2])
      ∧ c_w_bias c ≠ PyTensor ex_bias.
Proof.
  split; [reflexivity|]. split; [reflexivity|]. split; [simpl; lia|].
  split; [vm_compute; reflexivity|].
  eexists. split; [vm_compute; reflexivity|]. split; [reflexivity | discriminate].
Qed.

(** ** The further properties at concrete configurations *)

Lemma cells_share_structural_parameters_witness :
  construct ex_args = Ok (built ex_args)
  ∧ ∃ c, cell_at (built ex_args) 1 = Some c
      ∧ c_input_set c = PyList [PyFloat (1 # 1); PyFloat (-1 # 1)]
      ∧ c_nonlin_func c = PyFunc "torch.tanh".
Proof.
  assert (construct ex_args = Ok (built ex_args)) as H
    by (apply built_Ok; reflexivity).
  split; [exact H|].
  destruct (cell_at_exists ex_args (built ex_args) 1 H) as [c Hc];
    [simpl; lia|].
  destruct (cells_share_structural_parameters ex_args _ 1 c H Hc)
    as (_ & Hi & _ & Hn & _).
  exists c. repeat split; [exact Hc | exact Hi | exact Hn].
Defined.

Lemma readout_agrees_with_cells_witness :
  construct ex_feedback_args = Ok (built ex_feedback_args)
  ∧ ∃ r, built ex_feedback_args !! "output" = Some (PyRRCell r)
      ∧ rr_output_dim r = 2
      ∧ rr_feedbacks r = PyBool true.
Proof.
  assert (construct ex_feedback_args = Ok (built ex_feedback_args)) as H
    by (apply built_Ok; reflexivity).
  split; [exact H|].
  destruct (readout_agrees_with_cells ex_feedback_args _ H)
    as (r & Ho & Hd & _ & Hf & _).
  exists r. repeat split; [exact Ho | exact Hd | exact Hf].
Defined.


Lemma short_stack_raises_witness :
  tensor_arg W ex_short_w_args = PyTensor ex_w
  ∧ ndim ex_w = stacked_ndim W
  ∧ (hd 0%nat (shape ex_w) < length (a_hidden_dim ex_short_w_args))%nat
  ∧ construct ex_short_w_args = Raise IndexError.
Proof.
  assert (hd 0%nat (shape ex_w) < length (a_hidden_dim ex_short_w_args))%nat
    as Hlt by (simpl; lia).
  split; [reflexivity|]. split; [reflexivity|]. split; [exact Hlt|].
  exact (short_stack_raises W ex_short_w_args ex_w eq_refl eq_refl Hlt).
Defined.


Lemma create_cell_has_no_effect_witness :
  with_create_cell PyNone ex_args
  = with_create_cell PyNone (with_create_cell (PyBool false) ex_args)
  ∧ construct ex_args = construct (with_create_cell (PyBool false) ex_args).
Proof.
  split; [reflexivity|].
  exact (create_cell_has_no_effect ex_args
           (with_create_cell (PyBool false) ex_args) eq_refl).
Defined.

Lemma feature_width_against_hidden_width_witness :
  construct ex_args = Ok (built ex_args)
  ∧ last (a_hidden_dim ex_args) = Some 4
  ∧ ∃ F, built ex_args !! "n_features" = Some (PyInt F)
      ∧ F = sum (a_hidden_dim ex_args) + a_input_dim ex_args - 4.
Proof.
  assert (construct ex_args = Ok (built ex_args)) as H
    by (apply built_Ok; reflexivity).
  split; [exact H|]. split; [reflexivity|].
  destruct (feature_width_against_hidden_width ex_args _ 4 H eq_refl)
    as (F & HF & Heq & _).
  exists F. split; [exact HF | exact Heq].
Defined.

Lemma stacked_slices_share_one_shape_witness :
  construct ex_w_args = Ok (built ex_w_args)
  ∧ ∃ c, cell_at (built ex_w_args) 1 = Some c
      ∧ shape_of (c_w c) = Some [2; 2]%nat.
Proof.
  assert (construct ex_w_args = Ok (built ex_w_args)) as H
    by (apply built_Ok; reflexivity).
  split; [exact H|].
  destruct (cell_at_exists ex_w_args (built ex_w_args) 1 H) as [c Hc];
    [simpl; lia|].
  exists c. split; [exact Hc|].
  exact (proj1 (stacked_slices_share_one_shape W ex_w_args _ ex_w 1 c H
                  eq_refl eq_refl Hc)).
Defined.

Lemma get_w_out_returns_witness :
  reachable (C := bare) ex_trained
  ∧ ∃ r, ex_trained !! "output" = Some (PyRRCell r)
      ∧ get_w_out (C := bare) ex_trained = (Ok (rr_w_out r), ex_trained).
Proof.
  split; [exact reachable_ex_trained|].
  exact (get_w_out_returns (C := bare) ex_trained reachable_ex_trained).
Defined.

Lemma configuration_is_immutable_witness :
  construct ex_args = Ok (built ex_args)
  ∧ ∀ i, cell_at (run_calls (C := bare) ex_session (built ex_args)) i
         = cell_at (built ex_args) i.
Proof.
  assert (construct ex_args = Ok (built ex_args)) as H
    by (apply built_Ok; reflexivity).
  split; [exact H|].
  destruct (configuration_is_immutable (C := bare) ex_args _ ex_session H)
    as (_ & _ & _ & Hc).
  exact Hc.
Defined.

Lemma finalize_outcome_witness :
  reachable (C := bare) (built ex_args)
  ∧ (finalize (C := bare) (built ex_args)).1 = Ok PyNone
  ∧ ex_trained !! "training" = Some (PyBool false).
Proof.
  assert (reachable (C := bare) (built ex_args)) as H
    by (apply reachable_built; reflexivity).
  assert ((finalize (C := bare) (built ex_args)).1 = Ok PyNone) as Hok
    by (vm_compute; reflexivity).
  split; [exact H|]. split; [exact Hok|].
  destruct (finalize_outcome (C := bare) (built ex_args) H) as (_ & Hret & _).
  exact (proj1 (proj2 (Hret PyNone Hok))).
Defined.


End StackedESN.
